(** * RAG chatbot with memory: a shallow embedding of the service layer

    The development follows the Python sources under [app/services]:
    [memory_service.py], [embedding_service.py], [vector_store.py],
    [document_processor.py] and [rag_service.py].

    Conventions.
    - A Python [str] is a [string]; a character is a code point below 256.
    - A Python [float] is a rational ([Q]): the only arithmetic the services
      perform on floats is [1 - distance], read here in exact arithmetic.
    - A Python [int] is a [Z]; a [dict] with string keys is a [gmap string _];
      the dicts with a fixed shape built by the services are records.
    - The services are stateful.  A computation is a function from a [World]
      to a result (a value or a raised exception) and the next [World]; the
      world holds the conversation files, the vector collection, the
      document directories and the trace of calls made to the remote
      clients.  What the remote clients and libraries answer is a parameter
      ([Env]). *)

From Stdlib Require Import ZArith QArith Lqa String Ascii List Lia Sorted DecimalString.
From stdpp Require Import gmap strings list fin_maps.

Local Open Scope string_scope.
Local Open Scope list_scope.
Local Open Scope Z_scope.

(** ** Python built-ins used by the services *)

Module Py.

(** [l[start:]]: a negative start counts from the end, and the bounds are
    clamped to the list. *)
Definition slice_from {A : Type} (start : Z) (l : list A) : list A :=
  let len := Z.of_nat (length l) in
  let start' := if start <? 0 then Z.max (start + len) 0 else Z.min start len in
  drop (Z.to_nat start') l.

(** [str.isspace] of one character, for the code points below 256. *)
Definition isspace (c : ascii) : bool :=
  let n := nat_of_ascii c in
  ((9 <=? n) && (n <=? 13) || (28 <=? n) && (n <=? 32)
   || (n =? 133) || (n =? 160))%nat.

(** [s.replace(old, new)] for one-character [old] and [new]. *)
Fixpoint replace (old new : ascii) (s : string) : string :=
  match s with
  | EmptyString => EmptyString
  | String c s' =>
      String (if Ascii.eqb c old then new else c) (replace old new s')
  end.

Fixpoint lstrip (s : string) : string :=
  match s with
  | EmptyString => EmptyString
  | String c s' => if isspace c then lstrip s' else s
  end.

Fixpoint rstrip (s : string) : string :=
  match s with
  | EmptyString => EmptyString
  | String c s' =>
      match rstrip s' with
      | EmptyString => if isspace c then EmptyString else String c EmptyString
      | r => String c r
      end
  end.

(** [s.strip()] *)
Definition strip (s : string) : string := rstrip (lstrip s).

(** [str.lower] of one character, for the code points below 256. *)
Definition lower_char (c : ascii) : ascii :=
  let n := nat_of_ascii c in
  if ((65 <=? n) && (n <=? 90)
      || (192 <=? n) && (n <=? 222) && negb (n =? 215))%nat
  then ascii_of_nat (n + 32) else c.

Fixpoint lower (s : string) : string :=
  match s with
  | EmptyString => EmptyString
  | String c s' => String (lower_char c) (lower s')
  end.

(** Every character is whitespace (so also for the empty string). *)
Fixpoint all_space (s : string) : bool :=
  match s with
  | EmptyString => true
  | String c s' => isspace c && all_space s'
  end.

(** Truth value of a string: [if s] holds for the non-empty strings. *)
Definition truthy (s : string) : bool :=
  match s with EmptyString => false | _ => true end.

(** [str(z)] for an [int]. *)
Definition str_of_int (z : Z) : string :=
  NilZero.string_of_int (Z.to_int z).

Definition nl : ascii := ascii_of_nat 10.
Definition sp : ascii := ascii_of_nat 32.
Definition NL : string := String nl EmptyString.

End Py.

(** ** Exceptions, results and the world *)

(** The exceptions the services raise or let through.  [ExternalError] is
    whatever a remote client or a library call raises (provider errors,
    I/O errors); the services never build one themselves. *)
Inductive Exn : Type :=
| ValueError (msg : string)
| FileNotFoundError (msg : string)
| IndexError
| JSONDecodeError
| ExternalError (msg : string).

Inductive Result (A : Type) : Type :=
| Ok (a : A)
| Raise (e : Exn).
Arguments Ok {A} a.
Arguments Raise {A} e.

(** The error classes named by the specification. *)
Definition EmptyInput : Exn := ValueError "Text cannot be empty".
Definition LengthMismatch : Exn :=
  ValueError "Number of chunks must match number of embeddings".

Definition Vector : Type := list Q.

(** A metadata value: the services store strings and integers. *)
Inductive MetaVal : Type :=
| MStr (s : string)
| MInt (z : Z).

Abbreviation Metadata := (gmap string MetaVal).

(** [{'content': ..., 'metadata': ...}]: a loaded document or a chunk. *)
Record Chunk : Type := mkChunk {
  chunk_content : string;
  chunk_metadata : Metadata
}.

(** One entry of the list returned by [similarity_search]. *)
Record RetrievedDoc : Type := mkRetrievedDoc {
  content : string;
  metadata : Metadata;
  relevance_score : Q
}.

(** What [collection.query] returns: one row per query embedding. *)
Record QueryResult : Type := mkQueryResult {
  ids : list (list string);
  documents : list (list string);
  metadatas : list (list Metadata);
  distances : list (list Q)
}.

(** A stored record of the vector collection. *)
Record IndexedRecord : Type := mkIndexedRecord {
  rec_id : string;
  rec_embedding : Vector;
  rec_document : string;
  rec_metadata : Metadata
}.

Abbreviation Coll := (list IndexedRecord).

(** The [input=] argument of [client.embeddings.create]: one string
    ([generate_embedding]) or a list of strings
    ([generate_embeddings_batch]). *)
Inductive EmbInput : Type :=
| InStr (text : string)
| InList (texts : list string).

(** One interaction of a conversation, and the per-user record. *)
Record Interaction : Type := mkInteraction {
  timestamp : string;
  user : string;
  assistant : string;
  retrieved_docs : Z
}.

Record History : Type := mkHistory {
  user_id : string;
  messages : list Interaction;
  created_at : string;
  updated_at : string
}.

(** The text of a conversation file, as the sequence of JSON tokens that
    [json.dump] writes (punctuation between tokens is left out). *)
Inductive JTok : Type :=
| JObjOpen
| JObjClose
| JArrOpen
| JArrClose
| JKey (k : string)
| JStr (s : string)
| JInt (z : Z).

(** A path found by [rglob] under a documents directory: its name, its
    suffix, and what reading it with the reader of its type gives. *)
Record FileEntry : Type := mkFileEntry {
  fe_path : string;
  fe_name : string;
  fe_suffix : string;
  fe_read : string + string   (* inl: the reader raises; inr: the text *)
}.

(** Calls made to the remote clients, in the order they are made. *)
Inductive Event : Type :=
| EvEmbed (input : EmbInput)
| EvAdd (ids : list string) (embeddings : list Vector)
        (documents : list string) (metadatas : list Metadata)
| EvQuery (query_embedding : Vector) (n_results : Z)
| EvChat (system_message user_message : string).

Record World : Type := mkWorld {
  trace : list Event;
  conv_files : gmap string (list JTok);
  coll : Coll;
  doc_dirs : gmap string (list FileEntry);
  ticks : nat;
  uuids : nat
}.

(** The collaborators: what a call answers.  [inl msg] is a raised error.
    The model names, the temperature, the token limit and the collection
    name are fixed settings and are not passed along. *)
Record Env : Type := mkEnv {
  embeddings_create : EmbInput -> string + list Vector;
  chat_completions_create : string -> string -> string + string;
  collection_add :
    Coll -> list string -> list Vector -> list string -> list Metadata ->
    string + Coll;
  collection_query : Coll -> Vector -> Z -> string + QueryResult;
  uuid4 : nat -> string;
  datetime_now : nat -> string;
  split_text : string -> list string;
  format_2f : Q -> string
}.

(** The settings read by the services ([app/config.py]). *)
Record Settings : Type := mkSettings {
  max_conversation_history : Z
}.

Definition default_settings : Settings :=
  {| max_conversation_history := 10 |}.

(** ** The monad of service computations *)

Definition M (A : Type) : Type := World -> Result A * World.

Definition ret {A} (a : A) : M A := fun w => (Ok a, w).

Definition bind {A B} (m : M A) (k : A -> M B) : M B :=
  fun w => match m w with
           | (Ok a, w') => k a w'
           | (Raise e, w') => (Raise e, w')
           end.

Definition raise {A} (e : Exn) : M A := fun w => (Raise e, w).

Declare Scope py_scope.
Delimit Scope py_scope with py.
Notation "x <- c ;; k" := (bind c (fun x => k))
  (at level 100, c at next level, right associativity) : py_scope.
Notation "c ;;; k" := (bind c (fun _ => k))
  (at level 100, right associativity) : py_scope.
Local Open Scope py_scope.

Definition get_world : M World := fun w => (Ok w, w).

(** Updates of one component of the world. *)
Definition with_trace (t : list Event) (w : World) : World :=
  mkWorld t (conv_files w) (coll w) (doc_dirs w) (ticks w) (uuids w).

Definition with_conv_files (f : gmap string (list JTok)) (w : World) : World :=
  mkWorld (trace w) f (coll w) (doc_dirs w) (ticks w) (uuids w).

Definition with_coll (c : Coll) (w : World) : World :=
  mkWorld (trace w) (conv_files w) c (doc_dirs w) (ticks w) (uuids w).

Definition with_ticks (n : nat) (w : World) : World :=
  mkWorld (trace w) (conv_files w) (coll w) (doc_dirs w) n (uuids w).

Definition with_uuids (n : nat) (w : World) : World :=
  mkWorld (trace w) (conv_files w) (coll w) (doc_dirs w) (ticks w) n.

Definition emit (e : Event) : M unit :=
  fun w => (Ok tt, with_trace (trace w ++ [e]) w).

Definition set_conv_files (f : gmap string (list JTok)) : M unit :=
  fun w => (Ok tt, with_conv_files f w).

Definition set_coll (c : Coll) : M unit :=
  fun w => (Ok tt, with_coll c w).

(** The answer of a collaborator: an error becomes a raised exception. *)
Definition external {A} (r : string + A) : M A :=
  match r with
  | inl msg => raise (ExternalError msg)
  | inr a => ret a
  end.

(** [datetime.now().isoformat()] *)
Definition now_isoformat (env : Env) : M string :=
  fun w => (Ok (datetime_now env (ticks w)), with_ticks (S (ticks w)) w).

(** [str(uuid.uuid4())] *)
Definition fresh_uuid (env : Env) : M string :=
  fun w => (Ok (uuid4 env (uuids w)), with_uuids (S (uuids w)) w).

(** The result of running [m] from [w], and the world it leaves. *)
Definition result_of {A} (m : M A) (w : World) : Result A := fst (m w).
Definition world_after {A} (m : M A) (w : World) : World := snd (m w).

(** A comprehension or loop that runs a computation per element. *)
Fixpoint for_each {A B} (f : A -> M B) (l : list A) : M (list B) :=
  match l with
  | [] => ret []
  | a :: l' => b <- f a ;; bs <- for_each f l' ;; ret (b :: bs)
  end.

(** ** [app/services/memory_service.py] *)

Module MemoryService.

(** [json.dump(history, f, indent=2)]: the tokens written, in order. *)
Definition dump_interaction (i : Interaction) : list JTok :=
  [JObjOpen;
   JKey "timestamp"; JStr (timestamp i);
   JKey "user"; JStr (user i);
   JKey "assistant"; JStr (assistant i);
   JKey "retrieved_docs"; JInt (retrieved_docs i);
   JObjClose].

Definition json_dump (h : History) : list JTok :=
  [JObjOpen; JKey "user_id"; JStr (user_id h); JKey "messages"; JArrOpen]
  ++ concat (map dump_interaction (messages h))
  ++ [JArrClose;
      JKey "created_at"; JStr (created_at h);
      JKey "updated_at"; JStr (updated_at h);
      JObjClose].

(** [json.load(f)], for the records this service writes: the elements of
    the [messages] array up to its closing bracket, then the whole
    record.  [None] stands for a decoding error.  Only the layout of
    [json_dump] is read: a file edited by hand into another layout is
    outside this model, and the properties about a file that does not
    decode are stated for the strict prefixes of a written record. *)
Fixpoint load_messages (toks : list JTok) : option (list Interaction * list JTok) :=
  match toks with
  | JArrClose :: rest => Some ([], rest)
  | JObjOpen :: JKey k1 :: JStr t :: JKey k2 :: JStr u :: JKey k3 :: JStr a
      :: JKey k4 :: JInt n :: JObjClose :: rest =>
      if ((k1 =? "timestamp") && (k2 =? "user") && (k3 =? "assistant")
          && (k4 =? "retrieved_docs"))%string
      then match load_messages rest with
           | Some (msgs, rest') => Some (mkInteraction t u a n :: msgs, rest')
           | None => None
           end
      else None
  | _ => None
  end.

Definition json_load (toks : list JTok) : option History :=
  match toks with
  | JObjOpen :: JKey k1 :: JStr uid :: JKey k2 :: JArrOpen :: rest =>
      if ((k1 =? "user_id") && (k2 =? "messages"))%string
      then match load_messages rest with
           | Some (msgs, [JKey k3; JStr c; JKey k4; JStr u; JObjClose]) =>
               if ((k3 =? "created_at") && (k4 =? "updated_at"))%string
               then Some (mkHistory uid msgs c u)
               else None
           | _ => None
           end
      else None
  | _ => None
  end.

(** [self.memory_dir / f"{user_id}.json"], as a name in the memory
    directory.  The files are kept by name: this is the file system for
    the user ids that are plain file names. *)
Definition _get_user_file (user_id : string) : string := user_id +:+ ".json".

(** [open(user_file, 'w')]: the file is created or truncated (the memory
    directory exists, [__init__] creates it, and the name can be created
    in it). *)
Definition open_w (user_file : string) : M unit :=
  w <- get_world ;; set_conv_files (<[user_file := []]> (conv_files w)).

(** One write of [json.dump] to the open file. *)
Definition f_write (user_file : string) (tok : JTok) : M unit :=
  w <- get_world ;;
  set_conv_files
    (<[user_file := default [] (conv_files w !! user_file) ++ [tok]]>
       (conv_files w)).

Fixpoint f_write_all (user_file : string) (toks : list JTok) : M unit :=
  match toks with
  | [] => ret tt
  | tok :: toks' => f_write user_file tok ;;; f_write_all user_file toks'
  end.

(** [_save_history], when every write goes through. *)
Definition _save_history (user_id : string) (history : History) : M unit :=
  let user_file := _get_user_file user_id in
  open_w user_file ;;; f_write_all user_file (json_dump history).

(** The run of [_save_history] that stops (a crash, an error of a write)
    when [k] tokens have been written. *)
Definition _save_history_interrupted (k : nat) (user_id : string)
    (history : History) : M unit :=
  let user_file := _get_user_file user_id in
  open_w user_file ;;; f_write_all user_file (take k (json_dump history)).

Definition get_history (env : Env) (user_id : string) : M History :=
  let user_file := _get_user_file user_id in
  w <- get_world ;;
  match conv_files w !! user_file with
  | Some toks =>
      match json_load toks with
      | Some h => ret h
      | None => raise JSONDecodeError
      end
  | None =>
      created <- now_isoformat env ;;
      updated <- now_isoformat env ;;
      ret (mkHistory user_id [] created updated)
  end.

(** [history['messages'] = msgs] and [history['updated_at'] = t] *)
Definition set_messages (msgs : list Interaction) (h : History) : History :=
  mkHistory (user_id h) msgs (created_at h) (updated_at h).

Definition set_updated_at (t : string) (h : History) : History :=
  mkHistory (user_id h) (messages h) (created_at h) t.

(** [len(retrieved_context) if retrieved_context else 0] *)
Definition retrieved_count (retrieved_context : option (list RetrievedDoc)) : Z :=
  match retrieved_context with
  | Some (d :: ds) => Z.of_nat (length (d :: ds))
  | _ => 0
  end.

(** [if len(msgs) > max_history: msgs = msgs[-max_history:]] *)
Definition sliding_window {A} (max_history : Z) (msgs : list A) : list A :=
  if Z.of_nat (length msgs) >? max_history
  then Py.slice_from (- max_history) msgs
  else msgs.

(** The body of [add_interaction]; [save] is its last step, the call of
    [_save_history]. *)
Definition add_interaction_with (save : string -> History -> M unit)
    (env : Env) (cfg : Settings)
    (user_id user_message assistant_message : string)
    (retrieved_context : option (list RetrievedDoc)) : M unit :=
  let max_history := max_conversation_history cfg in
  history <- get_history env user_id ;;
  ts <- now_isoformat env ;;
  let interaction :=
    mkInteraction ts user_message assistant_message
      (retrieved_count retrieved_context) in
  let history := set_messages (messages history ++ [interaction]) history in
  let history :=
    set_messages (sliding_window max_history (messages history)) history in
  updated <- now_isoformat env ;;
  let history := set_updated_at updated history in
  save user_id history.

Definition add_interaction : Env -> Settings -> string -> string -> string ->
    option (list RetrievedDoc) -> M unit :=
  add_interaction_with _save_history.


(** The record that [add_interaction] writes, from the record it read. *)
Definition next_history (cfg : Settings) (h : History)
    (ts updated user_message assistant_message : string)
    (retrieved_context : option (list RetrievedDoc)) : History :=
  set_updated_at updated
    (set_messages
       (sliding_window (max_conversation_history cfg)
          (messages h
           ++ [mkInteraction ts user_message assistant_message
                 (retrieved_count retrieved_context)]))
       h).

Definition render_message (msg : Interaction) : string :=
  ("User: " +:+ user msg +:+ Py.NL)
  +:+ ("Assistant: " +:+ assistant msg +:+ Py.NL +:+ Py.NL).

(** The text built by [get_conversation_context] from the selected
    messages. *)
Definition render_context (msgs : list Interaction) : string :=
  match msgs with
  | [] => ""
  | _ =>
      fold_left (fun context msg => context +:+ render_message msg)
        msgs ("Previous conversation:" +:+ Py.NL)
  end.

Definition get_conversation_context (env : Env) (user_id : string)
    (n_messages : Z) : M string :=
  history <- get_history env user_id ;;
  let msgs := Py.slice_from (- n_messages) (messages history) in
  ret (render_context msgs).

Definition clear_history (user_id : string) : M unit :=
  let user_file := _get_user_file user_id in
  w <- get_world ;;
  match conv_files w !! user_file with
  | Some _ => set_conv_files (delete user_file (conv_files w))
  | None => ret tt
  end.

(** The messages of the record [get_history] returns in a world, if it
    returns one. *)
Definition recorded (env : Env) (user_id : string) (w : World)
    : option (list Interaction) :=
  match result_of (get_history env user_id) w with
  | Ok h => Some (messages h)
  | Raise _ => None
  end.

(** What one call of [add_interaction] is given, and what an interaction
    keeps of it. *)
Definition Turn : Type := (string * string * option (list RetrievedDoc))%type.

Definition turn_kept (t : Turn) : string * string * Z :=
  let '(user_message, assistant_message, retrieved_context) := t in
  (user_message, assistant_message, retrieved_count retrieved_context).

Definition interaction_turn (i : Interaction) : string * string * Z :=
  (user i, assistant i, retrieved_docs i).

(** A sequence of calls of [add_interaction] for one user. *)
Fixpoint add_interactions (env : Env) (cfg : Settings) (user_id : string)
    (turns : list Turn) : M unit :=
  match turns with
  | [] => ret tt
  | (user_message, assistant_message, retrieved_context) :: turns' =>
      add_interaction env cfg user_id user_message assistant_message
        retrieved_context ;;;
      add_interactions env cfg user_id turns'
  end.

End MemoryService.

(** ** [app/services/embedding_service.py] *)

Module EmbeddingService.

(** [text.replace("\n", " ").strip()] *)
Definition clean (text : string) : string :=
  Py.strip (Py.replace Py.nl Py.sp text).

Definition generate_embedding (env : Env) (text : string) : M Vector :=
  let text := clean text in
  if Py.truthy text then
    emit (EvEmbed (InStr text)) ;;;
    data <- external (embeddings_create env (InStr text)) ;;
    match data with
    | embedding :: _ => ret embedding
    | [] => raise IndexError
    end
  else raise EmptyInput.

Definition generate_embeddings_batch (env : Env) (texts : list string)
    : M (list Vector) :=
  let cleaned_texts := map clean texts in
  emit (EvEmbed (InList cleaned_texts)) ;;;
  data <- external (embeddings_create env (InList cleaned_texts)) ;;
  ret data.

End EmbeddingService.

(** ** [app/services/vector_store.py] *)

Module VectorStore.

(** [l[i]] for an index [i >= 0]. *)
Definition getitem {A} (l : list A) (i : nat) : M A :=
  match l !! i with
  | Some a => ret a
  | None => raise IndexError
  end.

Definition add_documents (env : Env) (chunks : list Chunk)
    (embeddings : list Vector) : M Z :=
  if negb (length chunks =? length embeddings)%nat then raise LengthMismatch
  else
    ids <- for_each (fun _ => fresh_uuid env) chunks ;;
    let documents := map chunk_content chunks in
    let metadatas := map chunk_metadata chunks in
    w <- get_world ;;
    emit (EvAdd ids embeddings documents metadatas) ;;;
    c <- external (collection_add env (coll w) ids embeddings documents
                     metadatas) ;;
    set_coll c ;;;
    ret (Z.of_nat (length chunks)).

Definition similarity_search (env : Env) (query_embedding : Vector)
    (n_results : Z) : M (list RetrievedDoc) :=
  w <- get_world ;;
  emit (EvQuery query_embedding n_results) ;;;
  results <- external (collection_query env (coll w) query_embedding
                         n_results) ;;
  ids0 <- getitem (ids results) 0 ;;
  for_each (fun i =>
          docs0 <- getitem (documents results) 0 ;;
          doc <- getitem docs0 i ;;
          metas0 <- getitem (metadatas results) 0 ;;
          meta <- getitem metas0 i ;;
          dists0 <- getitem (distances results) 0 ;;
          dist <- getitem dists0 i ;;
          ret (mkRetrievedDoc doc meta (1 - dist)%Q))
       (seq 0 (length ids0)).

End VectorStore.

(** ** [app/services/document_processor.py] *)

Module DocumentProcessor.

(** [try: body except Exception: handler] *)
Definition try_except {A} (body : M A) (handler : Exn -> M A) : M A :=
  fun w => match body w with
           | (Raise e, w') => handler e w'
           | r => r
           end.

Definition supported_extensions : list string := [".txt"; ".pdf"; ".docx"].

(** The three readers are I/O: what they give is carried by the entry. *)
Definition _extract_text (file_path : FileEntry) : M string :=
  let extension := Py.lower (fe_suffix file_path) in
  if (extension =? ".txt")%string then external (fe_read file_path)
  else if (extension =? ".pdf")%string then external (fe_read file_path)
  else if (extension =? ".docx")%string then external (fe_read file_path)
  else raise (ValueError ("Unsupported file type: " +:+ extension)).

Definition file_metadata (file_path : FileEntry) : Metadata :=
  <["source" := MStr (fe_path file_path)]>
    (<["filename" := MStr (fe_name file_path)]>
       (<["file_type" := MStr (fe_suffix file_path)]> ∅)).

(** The body of the loop over [directory_path.rglob('*')]. *)
Definition load_one (documents : list Chunk) (file_path : FileEntry)
    : M (list Chunk) :=
  if existsb (String.eqb (Py.lower (fe_suffix file_path))) supported_extensions
  then
    try_except
      (content <- _extract_text file_path ;;
       if Py.truthy (Py.strip content)
       then ret (documents ++ [mkChunk content (file_metadata file_path)])
       else ret documents)
      (fun _ => ret documents)
  else ret documents.

(** A path from which [load_one] takes a document: a supported suffix,
    a reader that returns, and a text that is not blank. *)
Definition yields_content (file_path : FileEntry) : bool :=
  existsb (String.eqb (Py.lower (fe_suffix file_path))) supported_extensions
  && match fe_read file_path with
     | inl _ => false
     | inr content => Py.truthy (Py.strip content)
     end.

Fixpoint load_loop (documents : list Chunk) (paths : list FileEntry)
    : M (list Chunk) :=
  match paths with
  | [] => ret documents
  | file_path :: paths' =>
      documents' <- load_one documents file_path ;;
      load_loop documents' paths'
  end.

Definition load_documents (directory : string) : M (list Chunk) :=
  w <- get_world ;;
  match doc_dirs w !! directory with
  | None => raise (FileNotFoundError ("Directory not found: " +:+ directory))
  | Some paths => load_loop [] paths
  end.

Definition chunk_documents (env : Env) (documents : list Chunk) : list Chunk :=
  concat
    (map (fun doc =>
            let text_chunks := split_text env (chunk_content doc) in
            imap (fun i chunk =>
                    mkChunk chunk
                      (<["total_chunks" := MInt (Z.of_nat (length text_chunks))]>
                         (<["chunk_id" := MInt (Z.of_nat i)]>
                            (chunk_metadata doc))))
                 text_chunks)
         documents).

End DocumentProcessor.

(** ** [app/services/rag_service.py] *)

Module RAGService.

(** How an f-string prints a metadata value. *)
Definition format_meta (v : MetaVal) : string :=
  match v with
  | MStr s => s
  | MInt z => Py.str_of_int z
  end.

Definition context_header : string :=
  "Relevant information from documents:" +:+ Py.NL +:+ Py.NL.

(** The two [context += ...] of one round of the loop of [_build_context];
    [i] is the number given by [enumerate(documents, 1)]. *)
Definition render_document (env : Env) (i : nat) (doc : RetrievedDoc) : string :=
  let source := default (MStr "unknown") (metadata doc !! "filename") in
  ("[Document " +:+ Py.str_of_int (Z.of_nat i) +:+ "] (Source: "
     +:+ format_meta source +:+ ", Relevance: "
     +:+ format_2f env (relevance_score doc) +:+ ")" +:+ Py.NL)
  +:+ (content doc +:+ Py.NL +:+ Py.NL).

Fixpoint build_loop (env : Env) (i : nat) (documents : list RetrievedDoc)
    (context : string) : string :=
  match documents with
  | [] => context
  | doc :: documents' =>
      build_loop env (S i) documents' (context +:+ render_document env i doc)
  end.

Definition _build_context (env : Env) (documents : list RetrievedDoc) : string :=
  build_loop env 1 documents context_header.

Definition system_message : string :=
  "You are a helpful AI assistant with access to a knowledge base. " +:+ Py.NL
  +:+ "Your task is to answer questions based on the provided context and conversation history." +:+ Py.NL
  +:+ Py.NL
  +:+ "Guidelines:" +:+ Py.NL
  +:+ "1. Answer based primarily on the provided context" +:+ Py.NL
  +:+ "2. If the context doesn't contain relevant information, say so clearly" +:+ Py.NL
  +:+ "3. Cite sources when possible (mention document names)" +:+ Py.NL
  +:+ "4. Maintain conversation continuity using the history" +:+ Py.NL
  +:+ "5. Be concise but complete" +:+ Py.NL
  +:+ "6. If asked about previous messages, refer to the conversation history".

Definition user_message (query context conversation_history : string) : string :=
  conversation_history +:+ Py.NL
  +:+ Py.NL
  +:+ "Context from knowledge base:" +:+ Py.NL
  +:+ context +:+ Py.NL
  +:+ Py.NL
  +:+ "Current question: " +:+ query +:+ Py.NL
  +:+ Py.NL
  +:+ "Please provide a helpful answer based on the context above.".

Definition _generate_response (env : Env)
    (query context conversation_history : string) : M string :=
  let user_message := user_message query context conversation_history in
  emit (EvChat system_message user_message) ;;;
  external (chat_completions_create env system_message user_message).

Definition query (env : Env) (cfg : Settings) (user_id query : string)
    (n_results : Z) : M (string * list RetrievedDoc) :=
  query_embedding <- EmbeddingService.generate_embedding env query ;;
  retrieved_docs <-
    VectorStore.similarity_search env query_embedding n_results ;;
  conversation_context <-
    MemoryService.get_conversation_context env user_id 3 ;;
  let context := _build_context env retrieved_docs in
  answer <- _generate_response env query context conversation_context ;;
  MemoryService.add_interaction env cfg user_id query answer
    (Some retrieved_docs) ;;;
  ret (answer, retrieved_docs).

Definition index_documents (env : Env) (directory : string) : M Z :=
  documents <- DocumentProcessor.load_documents directory ;;
  let chunks := DocumentProcessor.chunk_documents env documents in
  let texts := map chunk_content chunks in
  embeddings <- EmbeddingService.generate_embeddings_batch env texts ;;
  count <- VectorStore.add_documents env chunks embeddings ;;
  ret count.

End RAGService.

(** ** A concrete environment, for the examples *)

Module Demo.

(** A provider that embeds each text on its own (here: as its length). *)
Definition embed_text (text : string) : Vector :=
  [inject_Z (Z.of_nat (String.length text))].

Definition zip_records (ids : list string) (embeddings : list Vector)
    (documents : list string) (metadatas : list Metadata) : Coll :=
  zip_with (fun '(i, e) '(d, m) => mkIndexedRecord i e d m)
    (zip ids embeddings) (zip documents metadatas).

(** An index that answers with the first [k] records, at distances
    0, 1/2, 1, ... *)
Definition first_k (c : Coll) (k : Z) : QueryResult :=
  let hits := take (Z.to_nat k) c in
  mkQueryResult [map rec_id hits] [map rec_document hits]
    [map rec_metadata hits]
    [imap (fun i _ => (Z.of_nat i # 2)%Q) hits].

(** The dimension of a collection is that of its first record; an empty
    collection takes the dimension of the first vector it is given. *)
Definition established_dimension (c : Coll) (embeddings : list Vector)
    : option nat :=
  match c, embeddings with
  | r :: _, _ => Some (length (rec_embedding r))
  | [], v :: _ => Some (length v)
  | [], [] => None
  end.

Definition same_dimension (c : Coll) (embeddings : list Vector) : bool :=
  match established_dimension c embeddings with
  | Some d => forallb (fun v => (length v =? d)%nat) embeddings
  | None => true
  end.

Definition dimension_error : string := "Embedding dimension mismatch".

(** The index of the examples refuses, as the vector database does, an
    [add] with a vector whose dimension is not the collection's. *)
Definition env : Env :=
  {| embeddings_create input :=
       match input with
       | InStr text => inr [embed_text text]
       | InList texts => inr (map embed_text texts)
       end;
     chat_completions_create _ _ := inr "I don't know.";
     collection_add c ids embeddings documents metadatas :=
       if same_dimension c embeddings
       then inr (c ++ zip_records ids embeddings documents metadatas)
       else inl dimension_error;
     collection_query c _ k := inr (first_k c k);
     uuid4 n := "id-" +:+ Py.str_of_int (Z.of_nat n);
     datetime_now n := "t" +:+ Py.str_of_int (Z.of_nat n);
     split_text text := [text];
     format_2f q := Py.str_of_int (Qnum q) +:+ "/" +:+ Py.str_of_int (Zpos (Qden q)) |}.

Definition world0 : World := mkWorld [] ∅ [] ∅ 0 0.

Definition chunk_a : Chunk := mkChunk "alpha" {["filename" := MStr "a.txt"]}.
Definition chunk_b : Chunk := mkChunk "beta" {["filename" := MStr "b.txt"]}.
Definition chunk_c : Chunk := mkChunk "gamma" {["filename" := MStr "c.txt"]}.

(** A documents directory from which nothing can be indexed: a text
    file with blank content, a PDF whose reader fails, and a file of an
    unsupported type. *)
Definition barren_paths : list FileEntry :=
  [mkFileEntry "docs/blank.txt" "blank.txt" ".txt"
     (inr (" " +:+ Py.NL +:+ Py.NL));
   mkFileEntry "docs/broken.PDF" "broken.PDF" ".PDF" (inl "cannot read");
   mkFileEntry "docs/notes.md" "notes.md" ".md" (inr "some notes")].

Definition world_barren : World :=
  mkWorld [] ∅ [] {["docs" := barren_paths]} 0 0.

Definition doc_a : RetrievedDoc :=
  mkRetrievedDoc "alpha" {["filename" := MStr "a.txt"]} 1%Q.

(** The world after three chunks are stored. *)
Definition world_three : World :=
  world_after
    (VectorStore.add_documents env [chunk_a; chunk_b; chunk_c]
       [[1%Q]; [2%Q]; [3%Q]])
    world0.


(** A store configured to keep no history at all. *)
Definition zero_settings : Settings := {| max_conversation_history := 0 |}.

Definition two_turns : list MemoryService.Turn :=
  [("hi", "hello", None); ("and then?", "that is all", None)].

(** The world after two calls of [add_interaction] for user [u]. *)
Definition world_two : World :=
  world_after
    (MemoryService.add_interactions env default_settings "u" two_turns)
    world0.

End Demo.

(** ** More of the sources: readers, the API layer *)

Module PyText.

(** [s[:n]] for [n >= 0] *)
Fixpoint prefix (n : nat) (s : string) : string :=
  match n, s with
  | S n', String c s' => String c (prefix n' s')
  | _, _ => EmptyString
  end.

(** [s.endswith(suffix)] *)
Fixpoint endswith (suffix s : string) : bool :=
  (s =? suffix)%string
  || match s with
     | EmptyString => false
     | String _ s' => endswith suffix s'
     end.

(** [c in s] for a character [c] *)
Definition has_char (c : ascii) (s : string) : Prop :=
  In c (list_ascii_of_string s).

End PyText.

Module Readers.

(** The loop of [_read_pdf] over the texts of the pages, and of
    [_read_docx] over the texts of the paragraphs:
    [text += page.extract_text() + "\n"]. *)
Definition join_lines (parts : list string) : string :=
  fold_left (fun text part => text +:+ (part +:+ Py.NL)) parts "".

Definition _read_pdf (pages : list string) : string := join_lines pages.

Definition _read_docx (paragraphs : list string) : string :=
  join_lines paragraphs.

(** The document [load_documents] appends for a path whose reader returns:
    the text as read, and the three metadata keys. *)
Definition document_of (file_path : FileEntry) : Chunk :=
  mkChunk
    (match fe_read file_path with
     | inr content => content
     | inl _ => ""
     end)
    (DocumentProcessor.file_metadata file_path).

End Readers.

(** ** [app/main.py]: the two endpoints that run the pipelines *)

Module Main.

(** What can be raised inside the [try] of an endpoint: an exception of
    the services, or an [HTTPException] raised by the endpoint itself. *)
Inductive Raised : Type :=
| Service (e : Exn)
| HTTPException (status_code : Z) (detail : string).

(** What the endpoint gives back: the response model, or the
    [HTTPException] that leaves it. *)
Inductive Response (A : Type) : Type :=
| Returned (body : A)
| Failed (status_code : Z) (detail : string).
Arguments Returned {A} body.
Arguments Failed {A} status_code detail.

Record QueryResponse : Type := mkQueryResponse {
  answer : string;
  retrieved_documents : list RetrievedDoc;
  conversation_id : string;
  response_timestamp : string
}.

Record DocumentUploadResponse : Type := mkDocumentUploadResponse {
  message : string;
  processed_files : list string;
  total_chunks : Z;
  status : string
}.

(** [RetrievedDocument(content=doc['content'][:200] + "...", ...)] *)
Definition shown (doc : RetrievedDoc) : RetrievedDoc :=
  mkRetrievedDoc (PyText.prefix 200 (content doc) +:+ "...") (metadata doc)
    (relevance_score doc).

(** [query_endpoint]; [str_of] is Python's [str(e)]. *)
Definition query_endpoint (str_of : Raised -> string) (env : Env)
    (cfg : Settings) (request_user_id request_query : string)
    : World -> Response QueryResponse * World :=
  fun w =>
    match RAGService.query env cfg request_user_id request_query 5 w with
    | (Ok (answer, retrieved_docs), w1) =>
        (Returned
           (mkQueryResponse answer (map shown retrieved_docs) request_user_id
              (datetime_now env (ticks w1))),
         with_ticks (S (ticks w1)) w1)
    | (Raise e, w1) => (Failed 500 (str_of (Service e)), w1)
    end.

Definition documents_dir : string := "./data/documents".

(** The names kept by the comprehension over [os.listdir]. *)
Definition listed_documents (listing : list string) : list string :=
  List.filter
    (fun f => existsb (fun suffix => PyText.endswith suffix f)
                [".txt"; ".pdf"; ".docx"])
    listing.

(** The body of the [try] of the indexing endpoint; [listing] is what
    [os.listdir(documents_dir)] gives. *)
Definition index_documents_body (env : Env) (listing : list string)
    : World -> (Raised + DocumentUploadResponse) * World :=
  fun w =>
    match doc_dirs w !! documents_dir with
    | None =>
        (inl (HTTPException 400
                ("Documents directory not found: " +:+ documents_dir)), w)
    | Some _ =>
        let files := listed_documents listing in
        match files with
        | [] =>
            (inl (HTTPException 400 "No documents found in ./data/documents/"),
             w)
        | _ =>
            match RAGService.index_documents env documents_dir w with
            | (Ok total_chunks, w1) =>
                (inr (mkDocumentUploadResponse "Documents indexed successfully"
                        files total_chunks "completed"),
                 w1)
            | (Raise e, w1) => (inl (Service e), w1)
            end
        end
    end.

(** The endpoint: [except Exception as e: raise HTTPException(500, str(e))]
    around the body. *)
Definition index_documents_endpoint (str_of : Raised -> string) (env : Env)
    (listing : list string)
    : World -> Response DocumentUploadResponse * World :=
  fun w =>
    match index_documents_body env listing w with
    | (inr response, w1) => (Returned response, w1)
    | (inl e, w1) => (Failed 500 (str_of e), w1)
    end.

End Main.

(** ** The names of the conversation files *)

Module UserFiles.

(** The user ids for which the file of a user is a file of its own in the
    memory directory, which can be created: no path separator and no NUL
    in the id, and a name ([uid + ".json"], at most two bytes per
    character) within the 255 bytes of a file name. *)
Definition plain_user_id (uid : string) : Prop :=
  ~ PyText.has_char "/" uid
  /\ ~ PyText.has_char "000" uid
  /\ (String.length uid <= 125)%nat.

End UserFiles.

(** ** More concrete inputs *)

Module Cases.

(** An index that answers with two ids and one document only. *)
Definition env_ragged : Env :=
  mkEnv (embeddings_create Demo.env) (chat_completions_create Demo.env)
    (collection_add Demo.env)
    (fun _ _ _ =>
       inr (mkQueryResult [["id-0"; "id-1"]] [["alpha"]]
              [[∅; ∅]] [[0%Q; 1%Q]]))
    (uuid4 Demo.env) (datetime_now Demo.env) (split_text Demo.env)
    (format_2f Demo.env).

(** A directory with one text file of two paragraphs, a blank file and a
    file whose reader fails. *)
Definition mixed_paths : list FileEntry :=
  [mkFileEntry "./data/documents/blank.txt" "blank.txt" ".txt" (inr " ");
   mkFileEntry "./data/documents/guide.TXT" "guide.TXT" ".TXT" (inr "first second");
   mkFileEntry "./data/documents/broken.pdf" "broken.pdf" ".pdf" (inl "cannot read")].

Definition world_mixed : World :=
  mkWorld [] ∅ [] {["./data/documents" := mixed_paths]} 0 0.

(** An environment like [Demo.env] whose splitter cuts at spaces of the
    example text. *)
Definition env_split : Env :=
  mkEnv (embeddings_create Demo.env) (chat_completions_create Demo.env)
    (collection_add Demo.env) (collection_query Demo.env)
    (uuid4 Demo.env) (datetime_now Demo.env)
    (fun text => if (text =? "first second")%string
                 then ["first"; "second"] else [text])
    (format_2f Demo.env).

(** An environment whose generation client fails. *)
Definition env_mute : Env :=
  mkEnv (embeddings_create Demo.env) (fun _ _ => inl "rate limit")
    (collection_add Demo.env) (collection_query Demo.env)
    (uuid4 Demo.env) (datetime_now Demo.env) (split_text Demo.env)
    (format_2f Demo.env).

(** A world where the file of user [u] is empty, as an interrupted write
    leaves it. *)
Definition world_corrupt : World :=
  mkWorld [] {[MemoryService._get_user_file "u" := []]} [] ∅ 0 0.

(** A store that keeps one interaction per user. *)
Definition one_settings : Settings := {| max_conversation_history := 1 |}.

(** Python's [str(e)], up to the texts that depend on the library. *)
Definition str_of (e : Main.Raised) : string :=
  match e with
  | Main.Service (ValueError msg) => msg
  | Main.Service (FileNotFoundError msg) => msg
  | Main.Service IndexError => "list index out of range"
  | Main.Service JSONDecodeError => "Expecting value"
  | Main.Service (ExternalError msg) => msg
  | Main.HTTPException status_code detail =>
      Py.str_of_int status_code +:+ ": " +:+ detail
  end.

End Cases.

(** * Properties *)

(** ** Python built-ins *)

Example slice_last_two : Py.slice_from (-2) [1; 2; 3] = [2; 3].
Proof. reflexivity. Qed.

Example slice_minus_zero : Py.slice_from (-0) [1; 2; 3] = [1; 2; 3].
Proof. reflexivity. Qed.

Example slice_last_many : Py.slice_from (-5) [1; 2; 3] = [1; 2; 3].
Proof. reflexivity. Qed.

Example strip_example :
  Py.strip (Py.replace Py.nl Py.sp ("  a" +:+ Py.NL +:+ "b " +:+ Py.NL)) = "a b".
Proof. reflexivity. Qed.

Example lower_example : Py.lower ".TxT" = ".txt".
Proof. reflexivity. Qed.

Section Slices.
Context {A : Type}.
Implicit Types (l : list A) (n : Z).

(** [l[-n:]] is the last [n] elements when [n] is positive ... *)
Lemma slice_from_last n l :
  0 < n -> Py.slice_from (- n) l = drop (length l - Z.to_nat n) l.
Proof.
  intros Hn. unfold Py.slice_from.
  destruct (Z.ltb_spec (- n) 0) as [_ | ?]; [ | lia].
  f_equal. lia.
Qed.

(** ... and the whole list when [n] is zero, since [-0] is [0]. *)
Lemma slice_from_minus_zero l : Py.slice_from (- 0) l = l.
Proof.
  unfold Py.slice_from. change (- 0) with 0. simpl.
  replace (Z.to_nat (Z.min 0 (Z.of_nat (length l)))) with 0%nat by lia.
  reflexivity.
Qed.

Lemma slice_from_last_length n l :
  0 < n -> (length (Py.slice_from (- n) l) <= Z.to_nat n)%nat.
Proof. intros Hn. rewrite slice_from_last by done. rewrite length_drop. lia. Qed.

Lemma slice_from_last_short n l :
  0 < n -> Z.of_nat (length l) <= n -> Py.slice_from (- n) l = l.
Proof.
  intros Hn Hl. rewrite slice_from_last by done.
  replace (length l - Z.to_nat n)%nat with 0%nat by lia. reflexivity.
Qed.

(** Sliding the window twice is sliding it once. *)
Lemma drop_last_app_last (k : nat) l x :
  drop (length (drop (length l - k) l ++ [x]) - k)
       (drop (length l - k) l ++ [x])
  = drop (length (l ++ [x]) - k) (l ++ [x]).
Proof.
  destruct k as [ | k].
  { rewrite !Nat.sub_0_r. by rewrite !drop_all. }
  rewrite !length_app, length_drop. simpl.
  destruct (decide (length l <= S k)%nat) as [Hle | Hgt].
  - replace (length l - S k)%nat with 0%nat by lia. simpl.
    f_equal. lia.
  - rewrite (drop_app_le l [x] (length l + 1 - S k)) by lia.
    rewrite drop_app_le by (rewrite length_drop; lia).
    rewrite drop_drop. do 2 f_equal. lia.
Qed.

End Slices.

Section Strings.

Lemma append_assoc (s1 s2 s3 : string) :
  (s1 +:+ s2) +:+ s3 = s1 +:+ (s2 +:+ s3).
Proof.
  induction s1 as [ | c s1 IH]; [done | ].
  change (String c ((s1 +:+ s2) +:+ s3) = String c (s1 +:+ (s2 +:+ s3))).
  by rewrite IH.
Qed.

Lemma append_empty_r (s : string) : s +:+ "" = s.
Proof.
  induction s as [ | c s IH]; [done | ].
  change (String c (s +:+ "") = String c s). by rewrite IH.
Qed.

Lemma truthy_false s : Py.truthy s = false <-> s = "".
Proof. by destruct s. Qed.

Lemma rstrip_empty s : Py.rstrip s = "" <-> Py.all_space s = true.
Proof.
  induction s as [ | c s IH]; simpl; [done | ].
  destruct (Py.rstrip s) eqn:E, (Py.isspace c); simpl; try done.
  split; [done | ]. intros H. by apply IH in H.
Qed.

Lemma strip_empty s : Py.strip s = "" <-> Py.all_space s = true.
Proof.
  unfold Py.strip. induction s as [ | c s IH]; [done | ].
  simpl Py.lstrip. simpl Py.all_space.
  destruct (Py.isspace c) eqn:Ec; [done | ].
  simpl. rewrite Ec. by destruct (Py.rstrip s).
Qed.

Lemma replace_nl_all_space s :
  Py.all_space (Py.replace Py.nl Py.sp s) = Py.all_space s.
Proof.
  induction s as [ | c s IH]; simpl; [done | ]. rewrite IH. f_equal.
  destruct (Ascii.eqb_spec c Py.nl) as [-> | ]; done.
Qed.

(** The cleaned text is empty exactly for the blank texts. *)
Lemma clean_empty text :
  EmbeddingService.clean text = "" <-> Py.all_space text = true.
Proof.
  unfold EmbeddingService.clean. by rewrite strip_empty, replace_nl_all_space.
Qed.

End Strings.

(** ** The conversation files *)

Section Json.
Import MemoryService.

Lemma load_messages_dump msgs rest :
  load_messages (concat (map dump_interaction msgs) ++ JArrClose :: rest)
  = Some (msgs, rest).
Proof.
  induction msgs as [ | [t u a n] msgs IH]; simpl; [done | ].
  by rewrite IH.
Qed.

(** [json.load] reads back what [json.dump] wrote. *)
Lemma json_load_dump h : json_load (json_dump h) = Some h.
Proof.
  destruct h as [uid msgs c u]. unfold json_dump, json_load. simpl.
  by rewrite load_messages_dump.
Qed.

Lemma load_messages_sound msgs :
  forall toks rest,
    load_messages toks = Some (msgs, rest) ->
    toks = concat (map dump_interaction msgs) ++ JArrClose :: rest.
Proof.
  induction msgs as [ | m msgs IH]; intros toks rest H.
  - destruct toks as [ | [] toks]; simpl in H; simplify_eq; try done.
    repeat (case_match; simplify_eq).
  - destruct toks as [ | [] toks]; simpl in H; simplify_eq.
    repeat (case_match; simplify_eq).
    repeat match goal with
           | E : (_ && _)%bool = true |- _ => apply andb_prop in E as [? ?]
           | E : (_ =? _)%string = true |- _ => apply String.eqb_eq in E
           end.
    subst. simpl. do 10 f_equal. by apply IH.
Qed.

(** Only the text of a record decodes, and it decodes to that record. *)
Lemma json_load_sound toks h : json_load toks = Some h -> toks = json_dump h.
Proof.
  unfold json_load. intros H.
  repeat (case_match; simplify_eq).
  repeat match goal with
         | E : (_ && _)%bool = true |- _ => apply andb_prop in E as [? ?]
         | E : (_ =? _)%string = true |- _ => apply String.eqb_eq in E
         end.
  subst. unfold json_dump. simpl.
  match goal with
  | E : load_messages _ = Some _ |- _ => apply load_messages_sound in E as ->
  end.
  done.
Qed.

(** No record's text is a strict prefix of another record's text. *)
Lemma json_dump_prefix_free h h' s : json_dump h' ++ s = json_dump h -> s = [].
Proof.
  intros E. unfold json_dump in E. simpl in E.
  injection E as _ E.
  apply (f_equal load_messages) in E.
  rewrite <- !app_assoc in E. simpl in E.
  rewrite !load_messages_dump in E.
  injection E as _ E. by destruct s.
Qed.

(** A text cut short does not decode. *)
Lemma json_load_truncated h (k : nat) :
  (k < length (json_dump h))%nat -> json_load (take k (json_dump h)) = None.
Proof.
  intros Hk. destruct (json_load (take k (json_dump h))) as [h' | ] eqn:E; [ | done].
  apply json_load_sound in E.
  assert (drop k (json_dump h) = []) as Hd.
  { apply (json_dump_prefix_free h h'). by rewrite <- E, take_drop. }
  apply (f_equal length) in Hd. rewrite length_drop in Hd.
  change (length (@nil JTok)) with 0%nat in Hd. lia.
Qed.

End Json.

(** Running a sequence: the first computation returns or raises. *)
Lemma bind_ok {A B} (m : M A) (k : A -> M B) w a w' :
  m w = (Ok a, w') -> bind m k w = k a w'.
Proof. intros H. unfold bind. by rewrite H. Qed.

Lemma bind_raise {A B} (m : M A) (k : A -> M B) w e w' :
  m w = (Raise e, w') -> bind m k w = (Raise e, w').
Proof. intros H. unfold bind. by rewrite H. Qed.

Section MemoryRuns.
Import MemoryService.
Variable env : Env.

Lemma open_w_run user_file w :
  open_w user_file w
  = (Ok tt, with_conv_files (<[user_file := []]> (conv_files w)) w).
Proof. reflexivity. Qed.

Lemma with_conv_files_id w : with_conv_files (conv_files w) w = w.
Proof. by destruct w. Qed.

Lemma f_write_all_run user_file toks :
  forall w pre,
    conv_files w !! user_file = Some pre ->
    f_write_all user_file toks w
    = (Ok tt, with_conv_files (<[user_file := pre ++ toks]> (conv_files w)) w).
Proof.
  induction toks as [ | tok toks IH]; intros w pre Hpre; simpl.
  - rewrite app_nil_r, insert_id by done. by rewrite with_conv_files_id.
  - unfold bind, f_write, get_world, set_conv_files. simpl.
    rewrite Hpre. simpl.
    erewrite IH by (simpl; apply lookup_insert_eq).
    simpl. unfold with_conv_files. simpl.
    by rewrite insert_insert_eq, <- app_assoc.
Qed.

Lemma save_history_interrupted_run k uid h w :
  _save_history_interrupted k uid h w
  = (Ok tt, with_conv_files
              (<[_get_user_file uid := take k (json_dump h)]> (conv_files w)) w).
Proof.
  unfold _save_history_interrupted.
  erewrite bind_ok by apply open_w_run.
  erewrite f_write_all_run by (simpl; apply lookup_insert_eq).
  unfold with_conv_files. simpl. by rewrite insert_insert_eq.
Qed.

Lemma save_history_run uid h w :
  _save_history uid h w
  = (Ok tt, with_conv_files
              (<[_get_user_file uid := json_dump h]> (conv_files w)) w).
Proof.
  unfold _save_history.
  erewrite bind_ok by apply open_w_run.
  erewrite f_write_all_run by (simpl; apply lookup_insert_eq).
  unfold with_conv_files. simpl. by rewrite insert_insert_eq.
Qed.

(** A completed run is the run interrupted after the last token. *)
Lemma save_history_complete uid h w :
  _save_history uid h w
  = _save_history_interrupted (length (json_dump h)) uid h w.
Proof. unfold _save_history, _save_history_interrupted. by rewrite take_ge. Qed.

Lemma get_history_stored uid h w :
  conv_files w !! _get_user_file uid = Some (json_dump h) ->
  get_history env uid w = (Ok h, w).
Proof.
  intros H. unfold get_history, bind, get_world. simpl.
  by rewrite H, json_load_dump.
Qed.

Lemma get_history_absent uid w :
  conv_files w !! _get_user_file uid = None ->
  get_history env uid w
  = (Ok (mkHistory uid [] (datetime_now env (ticks w))
           (datetime_now env (S (ticks w)))),
     with_ticks (S (S (ticks w))) w).
Proof.
  intros H. unfold get_history, bind, get_world. simpl. by rewrite H.
Qed.

Lemma get_history_undecodable uid toks w :
  conv_files w !! _get_user_file uid = Some toks ->
  json_load toks = None ->
  get_history env uid w = (Raise JSONDecodeError, w).
Proof.
  intros H1 H2. unfold get_history, bind, get_world. simpl.
  by rewrite H1, H2.
Qed.

Lemma add_interaction_run cfg uid um am rc w h w1 :
  get_history env uid w = (Ok h, w1) ->
  add_interaction env cfg uid um am rc w
  = (Ok tt,
     with_conv_files
       (<[_get_user_file uid :=
            json_dump (next_history cfg h (datetime_now env (ticks w1))
                         (datetime_now env (S (ticks w1))) um am rc)]>
          (conv_files w1))
       (with_ticks (S (S (ticks w1))) w1)).
Proof.
  intros H. unfold add_interaction, add_interaction_with, bind. rewrite H.
  unfold now_isoformat. simpl. by rewrite save_history_run.
Qed.


Lemma recorded_Some uid w old :
  recorded env uid w = Some old ->
  exists h w1, get_history env uid w = (Ok h, w1) /\ messages h = old.
Proof.
  unfold recorded, result_of. intros H.
  destruct (get_history env uid w) as [[h | e] w1] eqn:E; simpl in H; [ | done].
  exists h, w1. split; [done | congruence].
Qed.

(** One call: the record read back afterwards holds the window of the old
    messages followed by the new interaction. *)
Lemma add_interaction_recorded cfg uid um am rc w old :
  recorded env uid w = Some old ->
  exists ts w',
    add_interaction env cfg uid um am rc w = (Ok tt, w')
    /\ recorded env uid w'
       = Some (sliding_window (max_conversation_history cfg)
                 (old ++ [mkInteraction ts um am (retrieved_count rc)])).
Proof.
  intros (h & w1 & Hget & <-)%recorded_Some.
  eexists _, _. split; [by apply add_interaction_run | ].
  unfold recorded, result_of.
  erewrite get_history_stored by (simpl; apply lookup_insert_eq).
  reflexivity.
Qed.

End MemoryRuns.

Lemma fold_left_mapped {A B C} (g : A -> B) (f : C -> B -> C) l :
  forall c, fold_left (fun c a => f c (g a)) l c = fold_left f (map g l) c.
Proof. induction l as [ | a l IH]; intros c; simpl; [done | by rewrite IH]. Qed.

Section SlidingWindow.
Import MemoryService.
Context {A : Type}.
Implicit Types (l : list A) (max_history : Z).

Lemma sliding_window_last max_history l :
  0 < max_history ->
  sliding_window max_history l = drop (length l - Z.to_nat max_history) l.
Proof.
  intros Hmax. unfold sliding_window.
  destruct (Z.gtb_spec (Z.of_nat (length l)) max_history) as [Hgt | Hle].
  - by apply slice_from_last.
  - replace (length l - Z.to_nat max_history)%nat with 0%nat by lia. done.
Qed.

Lemma sliding_window_length max_history l :
  0 < max_history ->
  Z.of_nat (length (sliding_window max_history l)) <= max_history.
Proof.
  intros Hmax. rewrite sliding_window_last by done. rewrite length_drop. lia.
Qed.

(** With [max_history = 0] the slice is [l[-0:]], the whole list. *)
Lemma sliding_window_zero l : sliding_window 0 l = l.
Proof.
  unfold sliding_window. destruct (_ >? _); [ | done].
  apply slice_from_minus_zero.
Qed.

Lemma sliding_window_map {B} (f : A -> B) max_history l :
  map f (sliding_window max_history l) = sliding_window max_history (map f l).
Proof.
  unfold sliding_window, Py.slice_from. rewrite !length_map.
  destruct (_ >? _); [ | done]. symmetry. apply skipn_map.
Qed.

End SlidingWindow.

Section MemoryWindow.
Import MemoryService.
Variables (env : Env) (cfg : Settings) (uid : string).
Local Abbreviation max_history := (max_conversation_history cfg).

(** The turns kept after a sequence of calls: each call appends its turn
    and applies the window. *)
Lemma add_interactions_recorded turns :
  forall w old,
    recorded env uid w = Some old ->
    exists w' msgs,
      add_interactions env cfg uid turns w = (Ok tt, w')
      /\ recorded env uid w' = Some msgs
      /\ map interaction_turn msgs
         = fold_left (fun kept t => sliding_window max_history (kept ++ [turn_kept t]))
             turns (map interaction_turn old).
Proof.
  induction turns as [ | [[um am] rc] turns IH]; intros w old Hold.
  - exists w, old. by simpl.
  - destruct (add_interaction_recorded env cfg uid um am rc w old Hold)
      as (ts & w1 & Hrun & Hrec).
    destruct (IH w1 _ Hrec) as (w' & msgs & Hrun' & Hrec' & Hmsgs).
    exists w', msgs. split_and!; [ | done | ].
    + simpl. by erewrite bind_ok by exact Hrun.
    + rewrite Hmsgs. simpl. f_equal.
      by rewrite sliding_window_map, map_app.
Qed.

Lemma fold_window_last (turns : list (string * string * Z)) :
  0 < max_history ->
  forall kept,
    (length kept <= Z.to_nat max_history)%nat ->
    fold_left (fun kept t => sliding_window max_history (kept ++ [t])) turns kept
    = drop (length (kept ++ turns) - Z.to_nat max_history) (kept ++ turns).
Proof.
  intros Hmax. induction turns as [ | t turns IH]; intros kept Hlen; simpl.
  - rewrite app_nil_r.
    replace (length kept - Z.to_nat max_history)%nat with 0%nat by lia. done.
  - rewrite IH.
    2:{ pose proof (sliding_window_length max_history (kept ++ [t]) Hmax). lia. }
    rewrite sliding_window_last by done.
    rewrite (cons_middle t kept turns), app_assoc.
    set (l := kept ++ [t]).
    rewrite !length_app, length_drop.
    rewrite <- (drop_app_le l turns) by lia.
    rewrite drop_drop. f_equal. lia.
Qed.

Lemma fold_window_zero (turns : list (string * string * Z)) :
  forall kept,
    fold_left (fun kept t => sliding_window 0 (kept ++ [t])) turns kept
    = kept ++ turns.
Proof.
  induction turns as [ | t turns IH]; intros kept; simpl.
  - by rewrite app_nil_r.
  - rewrite IH, sliding_window_zero. by rewrite <- app_assoc.
Qed.

Lemma recorded_absent w :
  conv_files w !! _get_user_file uid = None -> recorded env uid w = Some [].
Proof.
  intros H. unfold recorded, result_of. by rewrite get_history_absent.
Qed.

(** For a positive [max_history]: after any sequence of calls for a user
    with no record yet, the record holds the last [max_history] turns, in
    the order of the calls, and no more than [max_history] of them. *)
Lemma add_interactions_keep_last turns w :
  0 < max_history ->
  conv_files w !! _get_user_file uid = None ->
  exists w' msgs,
    add_interactions env cfg uid turns w = (Ok tt, w')
    /\ recorded env uid w' = Some msgs
    /\ map interaction_turn msgs
       = drop (length turns - Z.to_nat max_history) (map turn_kept turns)
    /\ Z.of_nat (length msgs) <= max_history.
Proof.
  intros Hmax Habs.
  destruct (add_interactions_recorded turns w [] (recorded_absent w Habs))
    as (w' & msgs & Hrun & Hrec & Hmsgs).
  exists w', msgs. split_and!; [done | done | | ].
  - rewrite Hmsgs. simpl.
    rewrite (fold_left_mapped turn_kept
               (fun kept t => sliding_window max_history (kept ++ [t]))).
    rewrite fold_window_last by (done || simpl; lia).
    simpl. by rewrite length_map.
  - apply (f_equal length) in Hmsgs. rewrite length_map in Hmsgs.
    rewrite Hmsgs. simpl.
    rewrite (fold_left_mapped turn_kept
               (fun kept t => sliding_window max_history (kept ++ [t]))).
    rewrite fold_window_last by (done || simpl; lia).
    simpl. rewrite length_drop, length_map. lia.
Qed.

End MemoryWindow.

Section MemoryContext.
Import MemoryService.
Variables (env : Env) (uid : string).

Lemma get_conversation_context_run n w h w1 :
  get_history env uid w = (Ok h, w1) ->
  get_conversation_context env uid n w
  = (Ok (render_context (Py.slice_from (- n) (messages h))), w1).
Proof.
  intros H. unfold get_conversation_context. by erewrite bind_ok by exact H.
Qed.

Lemma fold_left_append (f : Interaction -> string) msgs :
  forall init,
    fold_left (fun context msg => context +:+ f msg) msgs init
    = init +:+ String.concat "" (map f msgs).
Proof.
  induction msgs as [ | m msgs IH]; intros init; simpl.
  - by rewrite append_empty_r.
  - rewrite IH, append_assoc. f_equal.
    destruct msgs as [ | m' msgs]; simpl; [ | done].
    by rewrite append_empty_r.
Qed.

(** The text is the header line, then for each selected interaction, in
    the order of the list, its user line and its assistant line. *)
Lemma render_context_lines m msgs :
  render_context (m :: msgs)
  = ("Previous conversation:" +:+ Py.NL)
    +:+ String.concat "" (map render_message (m :: msgs)).
Proof. unfold render_context. apply fold_left_append. Qed.

(** For a positive [n], the context renders the last [n] interactions of
    the record (all of them when there are fewer), oldest first. *)
Lemma get_conversation_context_last n w msgs :
  0 < n ->
  recorded env uid w = Some msgs ->
  result_of (get_conversation_context env uid n) w
  = Ok (render_context (drop (length msgs - Z.to_nat n) msgs)).
Proof.
  intros Hn (h & w1 & Hget & <-)%recorded_Some.
  unfold result_of. erewrite get_conversation_context_run by exact Hget.
  simpl. by rewrite slice_from_last.
Qed.

(** For [n = 0] it renders the whole record. *)
Lemma get_conversation_context_zero w msgs :
  recorded env uid w = Some msgs ->
  result_of (get_conversation_context env uid 0) w = Ok (render_context msgs).
Proof.
  intros (h & w1 & Hget & <-)%recorded_Some.
  unfold result_of. erewrite get_conversation_context_run by exact Hget.
  simpl. by rewrite slice_from_minus_zero.
Qed.

(** A user without a record gets the empty text. *)
Lemma get_conversation_context_no_history n w :
  conv_files w !! _get_user_file uid = None ->
  result_of (get_conversation_context env uid n) w = Ok "".
Proof.
  intros H. unfold result_of.
  erewrite get_conversation_context_run by (by apply get_history_absent).
  simpl. unfold Py.slice_from. by rewrite drop_nil.
Qed.

End MemoryContext.

(** ** The conversation store: history bound, context, persistence *)

(** With [max_history = 0] nothing is ever evicted: the record keeps every
    turn of the sequence. *)
Lemma add_interactions_zero_keep_all env cfg uid turns w :
  max_conversation_history cfg = 0 ->
  conv_files w !! MemoryService._get_user_file uid = None ->
  exists w' msgs,
    MemoryService.add_interactions env cfg uid turns w = (Ok tt, w')
    /\ MemoryService.recorded env uid w' = Some msgs
    /\ map MemoryService.interaction_turn msgs
       = map MemoryService.turn_kept turns.
Proof.
  intros Hzero Habs.
  destruct (add_interactions_recorded env cfg uid turns w []
              (recorded_absent env uid w Habs))
    as (w' & msgs & Hrun & Hrec & Hmsgs).
  exists w', msgs. split_and!; [done | done | ].
  rewrite Hmsgs, Hzero. simpl.
  rewrite (fold_left_mapped MemoryService.turn_kept
             (fun kept t => MemoryService.sliding_window 0 (kept ++ [t]))).
  by rewrite fold_window_zero.
Qed.

(** C1. The history bound [len(messages) <= max_history] fails for
    [max_history = 0]: the test [len(messages) > 0] holds after the append,
    but the slice [messages[-0:]] is the whole list, so after two calls of
    [add_interaction] the stored record holds both interactions.  (For a
    positive [max_history] the bound and the first-in-first-out eviction
    hold: [add_interactions_keep_last].) *)
Theorem add_interaction_zero_max_history_exceeds_bound :
  exists msgs,
    MemoryService.recorded Demo.env "u"
      (world_after
         (MemoryService.add_interactions Demo.env Demo.zero_settings "u"
            Demo.two_turns)
         Demo.world0)
    = Some msgs
    /\ map MemoryService.interaction_turn msgs
       = [("hi", "hello", 0); ("and then?", "that is all", 0)]
    /\ Z.of_nat (length msgs) > max_conversation_history Demo.zero_settings.
Proof. eexists. split; [vm_compute; reflexivity | ]. split; reflexivity. Qed.

(** C7. The context for [n_messages = 0] is not the last zero interactions:
    the slice [messages[-0:]] is the whole list, so both stored
    interactions are rendered.  (For a positive [n] the last [n] are
    rendered, oldest first: [get_conversation_context_last] and
    [render_context_lines]; without history the text is empty:
    [get_conversation_context_no_history].) *)
Theorem get_conversation_context_zero_renders_all :
  exists m1 m2,
    MemoryService.recorded Demo.env "u" Demo.world_two = Some [m1; m2]
    /\ result_of (MemoryService.get_conversation_context Demo.env "u" 0)
         Demo.world_two
       = Ok (MemoryService.render_context [m1; m2])
    /\ MemoryService.render_context [m1; m2]
       = "Previous conversation:" +:+ Py.NL
         +:+ "User: hi" +:+ Py.NL +:+ "Assistant: hello" +:+ Py.NL +:+ Py.NL
         +:+ "User: and then?" +:+ Py.NL
         +:+ "Assistant: that is all" +:+ Py.NL +:+ Py.NL.
Proof. do 2 eexists. split; [vm_compute; reflexivity | ]. split; reflexivity. Qed.


(** [_save_history] overwrites the file in place.  A run that stops before
    the last token is written leaves a strict prefix of the new text, which
    [get_history] cannot decode, whatever the file held before; a run that
    completes leaves the new record readable. *)
Lemma save_history_in_place env uid h w (k : nat) :
  (k < length (MemoryService.json_dump h))%nat ->
  conv_files (world_after (MemoryService._save_history_interrupted k uid h) w)
    !! MemoryService._get_user_file uid
  = Some (take k (MemoryService.json_dump h))
  /\ result_of (MemoryService.get_history env uid)
       (world_after (MemoryService._save_history_interrupted k uid h) w)
     = Raise JSONDecodeError
  /\ result_of (MemoryService.get_history env uid)
       (world_after (MemoryService._save_history uid h) w)
     = Ok h.
Proof.
  intros Hk. unfold world_after, result_of.
  rewrite save_history_interrupted_run, save_history_run. simpl.
  rewrite lookup_insert_eq. split_and!; [done | | ].
  - erewrite get_history_undecodable;
      [done | simpl; apply lookup_insert_eq | by apply json_load_truncated].
  - erewrite get_history_stored; [done | simpl; apply lookup_insert_eq].
Qed.



(** ** The embedding client *)


Section Embedding.
Import EmbeddingService.
Variable env : Env.

Lemma generate_embedding_blank text w :
  clean text = "" -> generate_embedding env text w = (Raise EmptyInput, w).
Proof. intros H. unfold generate_embedding. by rewrite H. Qed.

Lemma generate_embedding_call text w :
  clean text <> "" ->
  generate_embedding env text w
  = (match embeddings_create env (InStr (clean text)) with
     | inl msg => Raise (ExternalError msg)
     | inr [] => Raise IndexError
     | inr (embedding :: _) => Ok embedding
     end,
     with_trace (trace w ++ [EvEmbed (InStr (clean text))]) w).
Proof.
  intros H. unfold generate_embedding.
  destruct (Py.truthy (clean text)) eqn:E; [ | by apply truthy_false in E].
  unfold bind, emit, external. simpl.
  destruct (embeddings_create env (InStr (clean text))) as [msg | [ | v vs]];
    done.
Qed.

Lemma generate_embeddings_batch_call texts w :
  generate_embeddings_batch env texts w
  = (match embeddings_create env (InList (map clean texts)) with
     | inl msg => Raise (ExternalError msg)
     | inr data => Ok data
     end,
     with_trace (trace w ++ [EvEmbed (InList (map clean texts))]) w).
Proof.
  unfold generate_embeddings_batch, bind, emit, external. simpl.
  by destruct (embeddings_create env (InList (map clean texts))).
Qed.

End Embedding.

Section BatchSingle.
Import EmbeddingService.
Variables (env : Env) (embed : string -> Vector).

(** An order-preserving provider: every non-empty text has its embedding,
    a call with one text answers it, and a call with a list answers the
    embeddings of the texts of the list, in the order of the list. *)
Hypothesis provider_single :
  forall text, text <> "" -> embeddings_create env (InStr text) = inr [embed text].
Hypothesis provider_batch :
  forall texts,
    texts <> [] -> Forall (fun text => text <> "") texts ->
    embeddings_create env (InList texts) = inr (map embed texts).

(** C9. For texts that are all non-empty once cleaned, and an
    order-preserving provider, the [i]-th embedding of the batch is the
    embedding [generate_embedding] returns for the [i]-th text: both paths
    clean the text in the same way before the call. *)
Theorem generate_embeddings_batch_single texts w w' (i : nat) text :
  Forall (fun text => clean text <> "") texts ->
  texts !! i = Some text ->
  exists embeddings embedding,
    result_of (generate_embeddings_batch env texts) w = Ok embeddings
    /\ length embeddings = length texts
    /\ embeddings !! i = Some embedding
    /\ result_of (generate_embedding env text) w' = Ok embedding.
Proof.
  intros Hall Hi.
  exists (map embed (map clean texts)), (embed (clean text)).
  unfold result_of. split_and!.
  - rewrite generate_embeddings_batch_call. simpl.
    rewrite provider_batch; [done | | ].
    + intros Hnil. apply map_eq_nil in Hnil. by subst.
    + by apply Forall_map.
  - by rewrite !length_map.
  - change (map embed (map clean texts))
      with (embed <$> (clean <$> texts)).
    by rewrite !list_lookup_fmap, Hi.
  - assert (clean text <> "") as Hne.
    { rewrite Forall_forall in Hall. apply Hall.
      by eapply list_elem_of_lookup_2. }
    rewrite generate_embedding_call by done. simpl.
    by rewrite provider_single.
Qed.

End BatchSingle.

Lemma generate_embeddings_batch_single_witness :
  exists embeddings embedding,
    result_of
      (EmbeddingService.generate_embeddings_batch Demo.env ["one"; " three "])
      Demo.world0
    = Ok embeddings
    /\ length embeddings = 2%nat
    /\ embeddings !! 1%nat = Some embedding
    /\ result_of (EmbeddingService.generate_embedding Demo.env " three ")
         Demo.world_two
       = Ok embedding.
Proof.
  apply (generate_embeddings_batch_single Demo.env Demo.embed_text).
  - intros text _. reflexivity.
  - intros texts _ _. reflexivity.
  - repeat constructor; vm_compute; discriminate.
  - reflexivity.
Defined.

(** C10. [generate_embeddings_batch] never raises the empty-input error: it
    has no emptiness check and submits the cleaned texts as they are.  For
    the list of a newline-only text and the text [doc], the provider is sent
    the empty string, where [generate_embedding] on that text raises. *)
Theorem generate_embeddings_batch_no_empty_check :
  (forall env texts w,
      result_of (EmbeddingService.generate_embeddings_batch env texts) w
      <> Raise EmptyInput
      /\ trace (world_after (EmbeddingService.generate_embeddings_batch env texts) w)
         = trace w ++ [EvEmbed (InList (map EmbeddingService.clean texts))])
  /\ map EmbeddingService.clean [Py.NL; "doc"] = [""; "doc"]
  /\ (forall env w,
        result_of (EmbeddingService.generate_embedding env Py.NL) w
        = Raise EmptyInput)
  /\ result_of (EmbeddingService.generate_embeddings_batch Demo.env [Py.NL; "doc"])
       Demo.world0
     = Ok [Demo.embed_text ""; Demo.embed_text "doc"].
Proof.
  split_and!; try reflexivity.
  intros env texts w. unfold result_of, world_after.
  rewrite generate_embeddings_batch_call. simpl. split; [ | done].
  by destruct (embeddings_create env _).
Qed.

(** ** The vector index client *)

Section Traversals.

Lemma for_each_pure {A B} (f : A -> M B) (g : A -> B) l w :
  (forall a, a ∈ l -> f a w = (Ok (g a), w)) ->
  for_each f l w = (Ok (map g l), w).
Proof.
  induction l as [ | a l IH]; intros H; simpl; [done | ].
  erewrite bind_ok by (apply H; left).
  erewrite bind_ok by (apply IH; intros; apply H; by right).
  done.
Qed.

Lemma fresh_uuids_run {A} env (l : list A) :
  forall w,
    for_each (fun _ => fresh_uuid env) l w
    = (Ok (map (uuid4 env) (seq (uuids w) (length l))),
       with_uuids (uuids w + length l) w).
Proof.
  induction l as [ | a l IH]; intros w; simpl.
  - rewrite Nat.add_0_r. by destruct w.
  - unfold bind at 1. unfold fresh_uuid at 1.
    erewrite bind_ok by apply IH. simpl.
    unfold with_uuids. simpl. do 3 f_equal. lia.
Qed.

Lemma map_seq_lookup {A B} (f : A -> B) (d : A) (l : list A) :
  map (fun i => f (default d (l !! i))) (seq 0 (length l)) = map f l.
Proof.
  apply list_eq. intros i.
  change (map ?h ?x) with (h <$> x). rewrite !list_lookup_fmap.
  destruct (decide (i < length l)%nat) as [Hlt | Hge].
  - rewrite lookup_seq_lt by done.
    destruct (lookup_lt_is_Some_2 l i Hlt) as [x Hx]. simpl. by rewrite Hx.
  - rewrite lookup_seq_ge by lia. by rewrite lookup_ge_None_2 by lia.
Qed.

Lemma Sorted_mapped {A B} (f : A -> B) (R : B -> B -> Prop) (l : list A) :
  Sorted (fun a b => R (f a) (f b)) l -> Sorted R (map f l).
Proof.
  induction 1 as [ | a l Hl IH Hhd]; simpl; [constructor | ].
  constructor; [done | ]. destruct Hhd; simpl; by constructor.
Qed.

Lemma Sorted_unmapped {A B} (f : A -> B) (R : B -> B -> Prop) (l : list A) :
  Sorted R (map f l) -> Sorted (fun a b => R (f a) (f b)) l.
Proof.
  induction l as [ | a l IH]; simpl; intros H; [constructor | ].
  apply Sorted_inv in H as [Hl Hhd]. constructor; [by apply IH | ].
  destruct l; simpl in *; constructor. by apply HdRel_inv in Hhd.
Qed.

Lemma Sorted_weaken {A} (R R' : A -> A -> Prop) (l : list A) :
  (forall a b, R a b -> R' a b) -> Sorted R l -> Sorted R' l.
Proof.
  intros HR. induction 1 as [ | a l Hl IH Hhd]; [constructor | ].
  constructor; [done | ]. destruct Hhd; constructor. by apply HR.
Qed.

End Traversals.

Section VectorStoreRuns.
Import VectorStore.
Variable env : Env.

Lemma add_documents_run chunks embeddings w :
  add_documents env chunks embeddings w
  = if negb (length chunks =? length embeddings)%nat
    then (Raise LengthMismatch, w)
    else
      let ids := map (uuid4 env) (seq (uuids w) (length chunks)) in
      let documents := map chunk_content chunks in
      let metadatas := map chunk_metadata chunks in
      let w1 :=
        with_trace (trace w ++ [EvAdd ids embeddings documents metadatas])
          (with_uuids (uuids w + length chunks) w) in
      match collection_add env (coll w) ids embeddings documents metadatas with
      | inl msg => (Raise (ExternalError msg), w1)
      | inr c => (Ok (Z.of_nat (length chunks)), with_coll c w1)
      end.
Proof.
  unfold add_documents.
  destruct (negb (length chunks =? length embeddings)%nat); [done | ].
  erewrite bind_ok by apply fresh_uuids_run.
  unfold bind, get_world, emit, external, set_coll. simpl.
  by destruct (collection_add env _ _ _ _ _).
Qed.

Lemma getitem_run {A} (l : list A) (i : nat) a w :
  l !! i = Some a -> getitem l i w = (Ok a, w).
Proof. intros H. unfold getitem. by rewrite H. Qed.

(** The entry built by the loop of [similarity_search] at index [i]. *)
Lemma similarity_search_run v k w ids0 docs0 metas0 dists0 :
  collection_query env (coll w) v k
  = inr (mkQueryResult [ids0] [docs0] [metas0] [dists0]) ->
  length docs0 = length ids0 ->
  length metas0 = length ids0 ->
  length dists0 = length ids0 ->
  similarity_search env v k w
  = (Ok (map (fun i =>
                mkRetrievedDoc (default "" (docs0 !! i))
                  (default ∅ (metas0 !! i))
                  (1 - default 0%Q (dists0 !! i))%Q)
           (seq 0 (length ids0))),
     with_trace (trace w ++ [EvQuery v k]) w).
Proof.
  intros Hq Hd Hm Hs. unfold similarity_search.
  unfold bind at 1, get_world at 1. unfold bind at 1, emit at 1.
  unfold bind at 1, external. simpl coll. rewrite Hq. simpl.
  apply for_each_pure. intros i Hi%elem_of_seq.
  destruct (lookup_lt_is_Some_2 docs0 i ltac:(lia)) as [doc Hdoc].
  destruct (lookup_lt_is_Some_2 metas0 i ltac:(lia)) as [meta Hmeta].
  destruct (lookup_lt_is_Some_2 dists0 i ltac:(lia)) as [dist Hdist].
  rewrite Hdoc, Hmeta, Hdist. simpl.
  repeat (erewrite bind_ok by (by apply getitem_run)).
  done.
Qed.

End VectorStoreRuns.




(** C6. Given what the index promises for [query(vector, k)] (one row of
    at most [k] matches, the four columns of equal length, distances in
    ascending order), [similarity_search] returns one entry per match, in
    the order of the index: at most [k] entries, each with the content and
    metadata of its match and with [relevance_score = 1 - distance], so the
    entries are in descending order of relevance, and a distance in [0, 2]
    gives a relevance in [-1, 1]. *)
Theorem similarity_search_ranked env v k w ids0 docs0 metas0 dists0 :
  collection_query env (coll w) v k
  = inr (mkQueryResult [ids0] [docs0] [metas0] [dists0]) ->
  length docs0 = length ids0 ->
  length metas0 = length ids0 ->
  length dists0 = length ids0 ->
  Z.of_nat (length ids0) <= k ->
  Sorted Qle dists0 ->
  exists docs,
    result_of (VectorStore.similarity_search env v k) w = Ok docs
    /\ Z.of_nat (length docs) <= k
    /\ map content docs = docs0
    /\ map metadata docs = metas0
    /\ map relevance_score docs = map (fun d => 1 - d)%Q dists0
    /\ Sorted (fun a b => relevance_score b <= relevance_score a)%Q docs
    /\ Forall2 (fun doc d =>
                  (0 <= d <= 2)%Q -> (-1 <= relevance_score doc <= 1)%Q)
         docs dists0.
Proof.
  intros Hq Hd Hm Hs Hk Hsorted.
  eexists. unfold result_of.
  rewrite (similarity_search_run env v k w ids0 docs0 metas0 dists0) by done.
  simpl.
  assert (map relevance_score
            (map (fun i =>
                    mkRetrievedDoc (default "" (docs0 !! i))
                      (default ∅ (metas0 !! i))
                      (1 - default 0%Q (dists0 !! i))%Q)
               (seq 0 (length ids0)))
          = map (fun d => 1 - d)%Q dists0) as Hscores.
  { rewrite map_map. simpl. rewrite <- Hs.
    apply (map_seq_lookup (fun d => (1 - d)%Q)). }
  split_and!.
  - reflexivity.
  - by rewrite length_map, length_seq.
  - rewrite map_map. simpl. rewrite <- Hd.
    rewrite (map_seq_lookup (fun x => x)). apply map_id.
  - rewrite map_map. simpl. rewrite <- Hm.
    rewrite (map_seq_lookup (fun x => x)). apply map_id.
  - exact Hscores.
  - apply (Sorted_unmapped relevance_score (fun x y => y <= x)%Q).
    rewrite Hscores. apply Sorted_mapped.
    eapply Sorted_weaken; [ | exact Hsorted]. simpl. intros a b Hab. lra.
  - eapply Forall2_impl.
    + refine (proj1 (Forall2_fmap relevance_score
                       (fun d => (1 - d)%Q) eq _ _) _).
      apply list_eq_Forall2. exact Hscores.
    + simpl. intros doc d -> Hd02. lra.
Qed.

Lemma similarity_search_ranked_witness :
  exists docs,
    result_of (VectorStore.similarity_search Demo.env [1%Q] 2) Demo.world_three
    = Ok docs
    /\ Z.of_nat (length docs) <= 2
    /\ map content docs = ["alpha"; "beta"]
    /\ map metadata docs
       = [{["filename" := MStr "a.txt"]}; {["filename" := MStr "b.txt"]}]
    /\ map relevance_score docs = map (fun d => 1 - d)%Q [0 # 2; 1 # 2]%Q
    /\ Sorted (fun a b => relevance_score b <= relevance_score a)%Q docs
    /\ Forall2 (fun doc d =>
                  (0 <= d <= 2)%Q -> (-1 <= relevance_score doc <= 1)%Q)
         docs [0 # 2; 1 # 2]%Q.
Proof.
  apply (similarity_search_ranked Demo.env [1%Q] 2 Demo.world_three
           ["id-0"; "id-1"]).
  - vm_compute. reflexivity.
  - reflexivity.
  - reflexivity.
  - reflexivity.
  - simpl. lia.
  - repeat constructor; vm_compute; discriminate.
Defined.

(** ** The ingestion pipeline *)

Section Ingestion.
Import DocumentProcessor.
Variable env : Env.

(** [_extract_text] leaves the world as it is, and returns only what the
    reader returns. *)
Lemma extract_text_run file_path w :
  exists r,
    _extract_text file_path w = (r, w)
    /\ forall text, r = Ok text -> fe_read file_path = inr text.
Proof.
  unfold _extract_text, external.
  destruct (fe_read file_path) as [msg | text]; repeat case_match;
    eexists; (split; [reflexivity | ]); intros; by simplify_eq.
Qed.

Lemma load_one_barren documents file_path w :
  yields_content file_path = false ->
  load_one documents file_path w = (Ok documents, w).
Proof.
  unfold yields_content, load_one. intros H.
  destruct (existsb _ supported_extensions) eqn:Hext; [ | done].
  simpl in H. unfold try_except, bind.
  destruct (extract_text_run file_path w) as (r & -> & Hr).
  destruct r as [text | e]; [ | done].
  rewrite (Hr text eq_refl) in H. by rewrite H.
Qed.

Lemma load_one_yields documents file_path w :
  yields_content file_path = true ->
  exists text,
    fe_read file_path = inr text
    /\ load_one documents file_path w
       = (Ok (documents ++ [mkChunk text (file_metadata file_path)]), w).
Proof.
  unfold yields_content, load_one. intros [Hext H]%andb_prop. rewrite Hext.
  destruct (fe_read file_path) as [msg | text] eqn:Hread; [done | ].
  exists text. split; [done | ].
  unfold try_except, bind, _extract_text, external. rewrite Hread.
  simpl in Hext. rewrite !orb_false_r in Hext.
  destruct (_ =? ".txt")%string; [simpl; by rewrite H | ].
  destruct (_ =? ".pdf")%string; [simpl; by rewrite H | ].
  destruct (_ =? ".docx")%string; [simpl; by rewrite H | done].
Qed.

Lemma load_loop_barren paths :
  forall documents w,
    Forall (fun file_path => yields_content file_path = false) paths ->
    load_loop documents paths w = (Ok documents, w).
Proof.
  induction paths as [ | file_path paths IH]; intros documents w H; [done | ].
  apply Forall_cons in H as [H1 H2]. simpl.
  erewrite bind_ok by (by apply load_one_barren). by apply IH.
Qed.

Lemma load_documents_barren directory paths w :
  doc_dirs w !! directory = Some paths ->
  Forall (fun file_path => yields_content file_path = false) paths ->
  load_documents directory w = (Ok [], w).
Proof.
  intros Hdir Hpaths. unfold load_documents, bind, get_world. simpl.
  rewrite Hdir. by apply load_loop_barren.
Qed.

Lemma load_documents_missing directory w :
  doc_dirs w !! directory = None ->
  load_documents directory w
  = (Raise (FileNotFoundError ("Directory not found: " +:+ directory)), w).
Proof.
  intros Hdir. unfold load_documents, bind, get_world. simpl. by rewrite Hdir.
Qed.

Lemma index_documents_barren_run directory paths w :
  doc_dirs w !! directory = Some paths ->
  Forall (fun file_path => yields_content file_path = false) paths ->
  let w1 := with_trace (trace w ++ [EvEmbed (InList [])]) w in
  let w2 :=
    with_trace (trace w1 ++ [EvAdd [] [] [] []])
      (with_uuids (uuids w1 + 0) w1) in
  RAGService.index_documents env directory w
  = match embeddings_create env (InList []) with
    | inl msg => (Raise (ExternalError msg), w1)
    | inr [] =>
        match collection_add env (coll w) [] [] [] [] with
        | inl msg => (Raise (ExternalError msg), w2)
        | inr c => (Ok 0, with_coll c w2)
        end
    | inr (_ :: _) => (Raise LengthMismatch, w1)
    end.
Proof.
  intros Hdir Hpaths w1 w2. unfold RAGService.index_documents.
  erewrite bind_ok by (by eapply load_documents_barren).
  simpl. unfold bind at 1. rewrite generate_embeddings_batch_call. simpl.
  destruct (embeddings_create env (InList [])) as [msg | [ | v vs]];
    [done | | done].
  unfold bind. rewrite add_documents_run. simpl.
  by destruct (collection_add env _ _ _ _ _).
Qed.

End Ingestion.

(** C2, as stated, fails: in a directory whose files yield no content
    [index_documents] still calls the embedding client, with the empty
    list, and then the vector index client, with empty lists. *)
Lemma index_documents_barren_calls_clients :
  Forall (fun file_path => DocumentProcessor.yields_content file_path = false)
    Demo.barren_paths
  /\ result_of (RAGService.index_documents Demo.env "docs") Demo.world_barren
     = Ok 0
  /\ trace (world_after (RAGService.index_documents Demo.env "docs")
              Demo.world_barren)
     = [EvEmbed (InList []); EvAdd [] [] [] []].
Proof.
  split_and!; [ | vm_compute; reflexivity | vm_compute; reflexivity].
  repeat constructor.
Qed.

(** C2, amended.  For an existing directory in which no file yields
    content, [index_documents] has no early return: it calls the embedding
    client once, with the empty list, and lets its error through; if the
    client answers with no embedding it calls [collection.add] once, with
    empty lists, lets its error through, and returns 0 when that call
    returns. *)
Theorem index_documents_barren env directory paths w :
  doc_dirs w !! directory = Some paths ->
  Forall (fun file_path => DocumentProcessor.yields_content file_path = false)
    paths ->
  result_of (RAGService.index_documents env directory) w
  = match embeddings_create env (InList []) with
    | inl msg => Raise (ExternalError msg)
    | inr [] =>
        match collection_add env (coll w) [] [] [] [] with
        | inl msg => Raise (ExternalError msg)
        | inr _ => Ok 0
        end
    | inr (_ :: _) => Raise LengthMismatch
    end
  /\ trace (world_after (RAGService.index_documents env directory) w)
     = trace w
       ++ EvEmbed (InList [])
          :: match embeddings_create env (InList []) with
             | inr [] => [EvAdd [] [] [] []]
             | _ => []
             end.
Proof.
  intros Hdir Hpaths. unfold result_of, world_after.
  rewrite (index_documents_barren_run env directory paths w Hdir Hpaths).
  destruct (embeddings_create env (InList [])) as [msg | [ | v vs]];
    [done | | done].
  destruct (collection_add env _ _ _ _ _); simpl; by rewrite <- app_assoc.
Qed.

Lemma index_documents_barren_witness :
  result_of (RAGService.index_documents Demo.env "docs") Demo.world_barren
  = Ok 0
  /\ trace (world_after (RAGService.index_documents Demo.env "docs")
              Demo.world_barren)
     = [EvEmbed (InList []); EvAdd [] [] [] []].
Proof.
  apply (index_documents_barren Demo.env "docs" Demo.barren_paths
           Demo.world_barren).
  - reflexivity.
  - repeat constructor.
Defined.

(** ** The query pipeline *)

Section QueryPipeline.
Import MemoryService.
Variables (env : Env) (cfg : Settings) (uid : string).

(** [get_history] touches neither the trace nor the files nor the index. *)
Lemma get_history_frame w r w' :
  get_history env uid w = (r, w') ->
  trace w' = trace w /\ conv_files w' = conv_files w /\ coll w' = coll w.
Proof.
  unfold get_history, bind, get_world, now_isoformat, raise, ret. simpl.
  intros H. repeat case_match; by simplify_eq.
Qed.

(** What [get_history] finds depends on the files only. *)
Lemma recorded_files w w' :
  conv_files w = conv_files w' -> recorded env uid w = recorded env uid w'.
Proof.
  intros H. unfold recorded, result_of, get_history, bind, get_world,
    now_isoformat, raise, ret. simpl.
  rewrite H.
  destruct (conv_files w' !! _get_user_file uid) as [toks | ]; [ | done].
  by destruct (json_load toks).
Qed.


Lemma generate_response_run query context conversation_history w :
  RAGService._generate_response env query context conversation_history w
  = (match chat_completions_create env RAGService.system_message
             (RAGService.user_message query context conversation_history) with
     | inl msg => Raise (ExternalError msg)
     | inr answer => Ok answer
     end,
     with_trace
       (trace w
        ++ [EvChat RAGService.system_message
              (RAGService.user_message query context conversation_history)])
       w).
Proof.
  unfold RAGService._generate_response, bind, emit, external. simpl.
  by destruct (chat_completions_create env _ _).
Qed.


End QueryPipeline.

(** Every context starts with the context built for no document: that one
    is the bare header, with nothing of its own. *)
Lemma build_loop_prefix env documents :
  forall i context,
    exists passages,
      RAGService.build_loop env i documents context = context +:+ passages.
Proof.
  induction documents as [ | doc documents IH]; intros i context; simpl.
  - exists "". by rewrite append_empty_r.
  - destruct (IH (S i) (context +:+ RAGService.render_document env i doc))
      as [passages ->].
    eexists. by rewrite append_assoc.
Qed.

Lemma build_context_prefix env documents :
  exists passages,
    RAGService._build_context env documents
    = RAGService._build_context env [] +:+ passages.
Proof. apply build_loop_prefix. Qed.




(** * Further properties of the services *)

(** ** The conversation store *)

Section StringFacts.

Lemma append_cons c (s t : string) : String c s +:+ t = String c (s +:+ t).
Proof. reflexivity. Qed.

Lemma length_append (s t : string) :
  String.length (s +:+ t) = (String.length s + String.length t)%nat.
Proof.
  induction s as [ | c s IH]; [done | ].
  rewrite append_cons. simpl. by rewrite IH.
Qed.

Lemma append_inj_r (t : string) :
  forall s s', s +:+ t = s' +:+ t -> s = s'.
Proof.
  induction s as [ | c s IH]; intros [ | c' s'] H; [done | | | ].
  - apply (f_equal String.length) in H. rewrite !length_append in H.
    simpl in H. lia.
  - apply (f_equal String.length) in H. rewrite !length_append in H.
    simpl in H. lia.
  - rewrite !append_cons in H. injection H as -> H. f_equal. by apply IH.
Qed.

Lemma get_user_file_inj uid uid' :
  MemoryService._get_user_file uid = MemoryService._get_user_file uid' ->
  uid = uid'.
Proof. apply append_inj_r. Qed.

End StringFacts.

Section MemoryFiles.
Import MemoryService.
Variables (env : Env) (cfg : Settings).

(** What [add_interaction] does to the world, whatever its outcome: it
    writes at most the file of its user, and only when it returns. *)
Lemma add_interaction_effect uid um am rc w r w' :
  add_interaction env cfg uid um am rc w = (r, w') ->
  trace w' = trace w /\ coll w' = coll w
  /\ (forall f, f <> _get_user_file uid ->
               conv_files w' !! f = conv_files w !! f)
  /\ (forall e, r = Raise e -> conv_files w' = conv_files w).
Proof.
  destruct (get_history env uid w) as [[h | e] w1] eqn:Hget;
    destruct (get_history_frame env uid _ _ _ Hget) as (Htr & Hfiles & Hcoll).
  - rewrite (add_interaction_run env cfg uid um am rc w h w1 Hget).
    intros [= <- <-]. simpl. split_and!; [done | done | | done].
    intros f Hf. by rewrite lookup_insert_ne, Hfiles.
  - unfold add_interaction, add_interaction_with.
    erewrite bind_raise by exact Hget. intros [= <- <-].
    split_and!; [done | done | by rewrite Hfiles | by rewrite Hfiles].
Qed.

End MemoryFiles.

(** A user id is shown to be plain by evaluation. *)
Ltac plain_id :=
  split_and!;
  [ vm_compute; intros H; repeat (destruct H as [H | H]; [discriminate H | ]);
    exact H
  | vm_compute; intros H; repeat (destruct H as [H | H]; [discriminate H | ]);
    exact H
  | vm_compute; lia ].

(** X1. For a user id that names a file of its own in the memory
    directory: after [clear_history] the user has no file and [get_history]
    returns a new, empty record, while the files of the other names, the
    index and the trace are as before; clearing again (or clearing a user
    without a file) changes nothing. *)
Theorem clear_history_forgets env uid w :
  UserFiles.plain_user_id uid ->
  let w1 := world_after (MemoryService.clear_history uid) w in
  conv_files w1 !! MemoryService._get_user_file uid = None
  /\ MemoryService.recorded env uid w1 = Some []
  /\ (forall f, f <> MemoryService._get_user_file uid ->
                conv_files w1 !! f = conv_files w !! f)
  /\ world_after (MemoryService.clear_history uid) w1 = w1
  /\ (conv_files w !! MemoryService._get_user_file uid = None -> w1 = w)
  /\ trace w1 = trace w /\ coll w1 = coll w.
Proof.
  intros _.
  unfold world_after, MemoryService.clear_history, bind, get_world.
  simpl.
  destruct (conv_files w !! MemoryService._get_user_file uid) as [toks | ] eqn:E;
    simpl.
  - rewrite lookup_delete_eq. split_and!; try done.
    + apply recorded_absent. simpl. apply lookup_delete_eq.
    + intros f Hf. by rewrite lookup_delete_ne.
  - rewrite E. split_and!; try done. by apply recorded_absent.
Qed.

Lemma clear_history_forgets_witness :
  MemoryService.recorded Demo.env "u"
    (world_after (MemoryService.clear_history "u") Demo.world_two)
  = Some [].
Proof.
  refine (proj1 (proj2 (clear_history_forgets Demo.env "u" Demo.world_two _))).
  plain_id.
Defined.

(** X2. The store is per user: an [add_interaction] or a [clear_history]
    for one user leaves the file of every other user, and the record read
    from it, as they were.  (User ids without a path separator: only then
    is the file of a user the file named after it.) *)
Theorem other_users_untouched env cfg uid uid' um am rc w :
  ~ PyText.has_char "/" uid ->
  ~ PyText.has_char "/" uid' ->
  uid <> uid' ->
  let w1 := world_after (MemoryService.add_interaction env cfg uid um am rc) w in
  let w2 := world_after (MemoryService.clear_history uid) w in
  conv_files w1 !! MemoryService._get_user_file uid'
  = conv_files w !! MemoryService._get_user_file uid'
  /\ conv_files w2 !! MemoryService._get_user_file uid'
     = conv_files w !! MemoryService._get_user_file uid'
  /\ (forall toks,
        conv_files w !! MemoryService._get_user_file uid' = Some toks ->
        result_of (MemoryService.get_history env uid') w1
        = result_of (MemoryService.get_history env uid') w).
Proof.
  intros _ _ Hne w1 w2.
  assert (MemoryService._get_user_file uid' <> MemoryService._get_user_file uid)
    as Hfile by (intros H; by apply get_user_file_inj in H).
  assert (conv_files w1 !! MemoryService._get_user_file uid'
          = conv_files w !! MemoryService._get_user_file uid') as H1.
  { unfold w1, world_after.
    destruct (MemoryService.add_interaction env cfg uid um am rc w)
      as [r w'] eqn:E.
    by apply (add_interaction_effect env cfg uid um am rc w r w' E). }
  split_and!; [exact H1 | | ].
  - unfold w2, world_after, MemoryService.clear_history, bind, get_world.
    simpl. destruct (conv_files w !! MemoryService._get_user_file uid); simpl;
      [by rewrite lookup_delete_ne | done].
  - intros toks Htoks. unfold result_of, MemoryService.get_history, bind,
      get_world. simpl. rewrite H1, Htoks. by destruct (MemoryService.json_load toks).
Qed.

Lemma other_users_untouched_witness :
  conv_files
    (world_after
       (MemoryService.add_interaction Demo.env default_settings "v" "hey" "yes"
          None)
       Demo.world_two)
    !! MemoryService._get_user_file "u"
  = conv_files Demo.world_two !! MemoryService._get_user_file "u".
Proof.
  refine (proj1 (other_users_untouched Demo.env default_settings "v" "u" "hey"
                   "yes" None Demo.world_two _ _ _)).
  - vm_compute. intros [H | []]. discriminate.
  - vm_compute. intros [H | []]. discriminate.
  - discriminate.
Defined.

(** X3. A file left by a write that stopped early (a strict prefix of the
    text of a record, the empty file included) blocks its user:
    [add_interaction] and [get_conversation_context] raise the decoding
    error and leave the world as it is (nothing is appended, the file is
    not repaired), until [clear_history] removes the file. *)
Theorem truncated_record_blocks env cfg uid h (j : nat) um am rc n w :
  (j < length (MemoryService.json_dump h))%nat ->
  conv_files w !! MemoryService._get_user_file uid
  = Some (take j (MemoryService.json_dump h)) ->
  MemoryService.add_interaction env cfg uid um am rc w
  = (Raise JSONDecodeError, w)
  /\ MemoryService.get_conversation_context env uid n w
     = (Raise JSONDecodeError, w)
  /\ MemoryService.recorded env uid
       (world_after (MemoryService.clear_history uid) w)
     = Some [].
Proof.
  intros Hj Hfile.
  pose proof (get_history_undecodable env uid _ w Hfile
                (json_load_truncated h j Hj)) as Hget.
  split_and!.
  - unfold MemoryService.add_interaction, MemoryService.add_interaction_with.
    by erewrite bind_raise by exact Hget.
  - unfold MemoryService.get_conversation_context.
    by erewrite bind_raise by exact Hget.
  - apply recorded_absent.
    unfold world_after, MemoryService.clear_history, bind, get_world. simpl.
    rewrite Hfile. simpl. apply lookup_delete_eq.
Qed.

Lemma truncated_record_blocks_witness :
  MemoryService.add_interaction Demo.env default_settings "u" "hi" "hello" None
    Cases.world_corrupt
  = (Raise JSONDecodeError, Cases.world_corrupt).
Proof.
  refine (proj1 (truncated_record_blocks Demo.env default_settings "u"
                   (mkHistory "u" [] "t0" "t1") 0 "hi" "hello" None 3
                   Cases.world_corrupt _ _)).
  - vm_compute. lia.
  - reflexivity.
Defined.

Section AppendResult.
Import MemoryService.

Lemma retrieved_count_length rc :
  retrieved_count rc = Z.of_nat (length (default [] rc)).
Proof. by destruct rc as [[ | d ds] | ]. Qed.

(** The window is a suffix; for a bound that is not negative it keeps the
    last element. *)
Lemma sliding_window_snoc {A} max_history (l : list A) x :
  0 <= max_history ->
  exists kept, sliding_window max_history (l ++ [x]) = kept ++ [x]
               /\ kept `suffix_of` l.
Proof.
  intros Hmax.
  destruct (decide (max_history = 0)) as [-> | Hpos].
  - exists l. by rewrite sliding_window_zero.
  - rewrite sliding_window_last by lia. rewrite length_app. simpl.
    rewrite drop_app_le by lia.
    eexists. split; [done | ]. apply suffix_drop.
Qed.

End AppendResult.

(** X4. For a user id that names a file of its own and a bound that is
    not negative, a call of [add_interaction] that finds a readable record
    (or none) leaves a record whose last message is
    the new interaction: the user and assistant texts as given, the number
    of retrieved documents (0 without any), the time of the call; the
    messages before it are a suffix of the old ones, and [user_id] and
    [created_at] are kept. *)
Theorem add_interaction_appends env cfg uid um am rc w h w1 :
  UserFiles.plain_user_id uid ->
  0 <= max_conversation_history cfg ->
  MemoryService.get_history env uid w = (Ok h, w1) ->
  exists h' kept,
    result_of (MemoryService.get_history env uid)
      (world_after (MemoryService.add_interaction env cfg uid um am rc) w)
    = Ok h'
    /\ messages h'
       = kept ++ [mkInteraction (datetime_now env (ticks w1)) um am
                    (Z.of_nat (length (default [] rc)))]
    /\ kept `suffix_of` messages h
    /\ user_id h' = user_id h
    /\ created_at h' = created_at h.
Proof.
  intros _ Hmax Hget.
  destruct (sliding_window_snoc (max_conversation_history cfg) (messages h)
              (mkInteraction (datetime_now env (ticks w1)) um am
                 (MemoryService.retrieved_count rc)) Hmax)
    as (kept & Hkept & Hsuffix).
  eexists _, kept. unfold result_of, world_after.
  rewrite (add_interaction_run env cfg uid um am rc w h w1 Hget). simpl.
  erewrite get_history_stored by (simpl; apply lookup_insert_eq). simpl.
  split_and!; [reflexivity | | done | done | done].
  unfold MemoryService.next_history, MemoryService.set_updated_at,
    MemoryService.set_messages. simpl.
  by rewrite Hkept, retrieved_count_length.
Qed.

Lemma add_interaction_appends_witness :
  exists h' kept,
    result_of (MemoryService.get_history Demo.env "u")
      (world_after
         (MemoryService.add_interaction Demo.env Cases.one_settings "u" "more"
            "sure" (Some [Demo.doc_a]))
         Demo.world_two)
    = Ok h'
    /\ messages h'
       = kept ++ [mkInteraction (datetime_now Demo.env (ticks Demo.world_two))
                    "more" "sure" 1]
    /\ kept `suffix_of`
         [mkInteraction "t2" "hi" "hello" 0;
          mkInteraction "t4" "and then?" "that is all" 0]
    /\ user_id h' = "u"
    /\ created_at h' = "t0".
Proof.
  apply (add_interaction_appends Demo.env Cases.one_settings "u" "more" "sure"
           (Some [Demo.doc_a]) Demo.world_two
           (mkHistory "u"
              [mkInteraction "t2" "hi" "hello" 0;
               mkInteraction "t4" "and then?" "that is all" 0]
              "t0" "t5")
           Demo.world_two).
  - plain_id.
  - simpl. lia.
  - vm_compute. reflexivity.
Defined.

(** X5. For a user id that names a file of its own and a positive
    [max_history]: after any sequence of calls of [add_interaction] for a
    user with no record yet, the record holds the last [max_history] turns,
    in the order of the calls, and no more than [max_history] of them. *)
Theorem history_holds_last_turns env cfg uid turns w :
  UserFiles.plain_user_id uid ->
  0 < max_conversation_history cfg ->
  conv_files w !! MemoryService._get_user_file uid = None ->
  exists w' msgs,
    MemoryService.add_interactions env cfg uid turns w = (Ok tt, w')
    /\ MemoryService.recorded env uid w' = Some msgs
    /\ map MemoryService.interaction_turn msgs
       = drop (length turns - Z.to_nat (max_conversation_history cfg))
           (map MemoryService.turn_kept turns)
    /\ Z.of_nat (length msgs) <= max_conversation_history cfg.
Proof. intros _. apply add_interactions_keep_last. Qed.

(** With room for one interaction: of two calls the second is kept. *)
Lemma history_holds_last_turns_witness :
  exists w' msgs,
    MemoryService.add_interactions Demo.env Cases.one_settings "u"
      Demo.two_turns Demo.world0
    = (Ok tt, w')
    /\ MemoryService.recorded Demo.env "u" w' = Some msgs
    /\ map MemoryService.interaction_turn msgs
       = drop (2 - 1) [("hi", "hello", 0); ("and then?", "that is all", 0)]
    /\ Z.of_nat (length msgs) <= 1.
Proof.
  apply (history_holds_last_turns Demo.env Cases.one_settings "u"
           Demo.two_turns Demo.world0).
  - plain_id.
  - simpl. lia.
  - reflexivity.
Defined.

(** X6. For a positive [n], [get_conversation_context] returns the empty
    text when the record has no message, and otherwise the header line
    followed by the user line and the assistant line of each of the last
    [n] interactions (of all when there are fewer), oldest first; it
    changes no file. *)
Theorem conversation_context_renders_last env uid n w msgs :
  0 < n ->
  MemoryService.recorded env uid w = Some msgs ->
  result_of (MemoryService.get_conversation_context env uid n) w
  = Ok (match drop (length msgs - Z.to_nat n) msgs with
        | [] => ""
        | m :: shown =>
            ("Previous conversation:" +:+ Py.NL)
            +:+ String.concat ""
                  (map (fun msg =>
                          ("User: " +:+ user msg +:+ Py.NL)
                          +:+ ("Assistant: " +:+ assistant msg +:+ Py.NL
                               +:+ Py.NL))
                     (m :: shown))
        end)
  /\ conv_files (world_after (MemoryService.get_conversation_context env uid n) w)
     = conv_files w.
Proof.
  intros Hn Hrec. split.
  - rewrite (get_conversation_context_last env uid n w msgs Hn Hrec).
    f_equal. destruct (drop _ msgs) as [ | m shown]; [done | ].
    apply render_context_lines.
  - destruct (recorded_Some env uid w msgs Hrec) as (h & w1 & Hget & _).
    unfold world_after.
    rewrite (get_conversation_context_run env uid n w h w1 Hget). simpl.
    by apply get_history_frame in Hget as (_ & -> & _).
Qed.

Lemma conversation_context_renders_last_witness :
  result_of (MemoryService.get_conversation_context Demo.env "u" 1)
    Demo.world_two
  = Ok ("Previous conversation:" +:+ Py.NL
        +:+ "User: and then?" +:+ Py.NL
        +:+ "Assistant: that is all" +:+ Py.NL +:+ Py.NL).
Proof.
  refine (proj1 (conversation_context_renders_last Demo.env "u" 1
                   Demo.world_two
                   [mkInteraction "t2" "hi" "hello" 0;
                    mkInteraction "t4" "and then?" "that is all" 0] _ _)).
  - lia.
  - vm_compute. reflexivity.
Defined.

(** ** The embedding client: the cleaned text *)

Section Cleaning.

Lemma lstrip_head s c r : Py.lstrip s = String c r -> Py.isspace c = false.
Proof.
  induction s as [ | a s IH]; simpl; [done | ].
  destruct (Py.isspace a) eqn:Ea; [done | ]. by intros [= <- _].
Qed.

Lemma rstrip_head c s :
  Py.isspace c = false -> exists r, Py.rstrip (String c s) = String c r.
Proof. intros Hc. simpl. rewrite Hc. destruct (Py.rstrip s); eauto. Qed.

Lemma rstrip_idem s : Py.rstrip (Py.rstrip s) = Py.rstrip s.
Proof.
  induction s as [ | a s IH]; simpl; [done | ].
  destruct (Py.rstrip s) as [ | b t] eqn:E.
  - destruct (Py.isspace a) eqn:Ea; simpl; [done | by rewrite Ea].
  - change (Py.rstrip (String a (String b t))) with
      (match Py.rstrip (String b t) with
       | EmptyString =>
           if Py.isspace a then EmptyString else String a EmptyString
       | r => String a r
       end).
    by rewrite IH.
Qed.

Lemma rstrip_last s :
  forall r c, Py.rstrip s = r +:+ String c "" -> Py.isspace c = false.
Proof.
  induction s as [ | a s IH]; intros r c; simpl.
  - by destruct r.
  - destruct (Py.rstrip s) as [ | b t] eqn:E.
    + destruct (Py.isspace a) eqn:Ea; [by destruct r | ].
      destruct r as [ | x [ | y r]]; [by intros [= <-] | done | done].
    + destruct r as [ | x r]; [done | ].
      rewrite append_cons. intros [= _ H]. by eapply IH.
Qed.

Lemma lstrip_chars c s : PyText.has_char c (Py.lstrip s) -> PyText.has_char c s.
Proof.
  unfold PyText.has_char. induction s as [ | a s IH]; simpl; [done | ].
  destruct (Py.isspace a); [by right; apply IH | done].
Qed.

Lemma rstrip_chars c s : PyText.has_char c (Py.rstrip s) -> PyText.has_char c s.
Proof.
  unfold PyText.has_char. induction s as [ | a s IH]; simpl; [done | ].
  destruct (Py.rstrip s) as [ | b t].
  - destruct (Py.isspace a); simpl; [done | ]. intros [-> | []]. by left.
  - simpl. intros [-> | H]; [by left | right]. by apply IH.
Qed.

Lemma replace_removes old new s :
  old <> new -> ~ PyText.has_char old (Py.replace old new s).
Proof.
  unfold PyText.has_char. intros Hne.
  induction s as [ | a s IH]; simpl; [by intros [] | ].
  intros [H | H]; [ | done].
  destruct (Ascii.eqb_spec a old); congruence.
Qed.

Lemma replace_absent old new s :
  ~ PyText.has_char old s -> Py.replace old new s = s.
Proof.
  unfold PyText.has_char. induction s as [ | a s IH]; simpl; [done | ].
  intros H. destruct (Ascii.eqb_spec a old) as [-> | _].
  - exfalso. apply H. by left.
  - f_equal. apply IH. intros H'. apply H. by right.
Qed.

Lemma strip_head s c r : Py.strip s = String c r -> Py.isspace c = false.
Proof.
  unfold Py.strip. destruct (Py.lstrip s) as [ | a t] eqn:E; [done | ].
  pose proof (lstrip_head s a t E) as Ha.
  destruct (rstrip_head a t Ha) as [r' ->]. by intros [= <- _].
Qed.

Lemma strip_idem s : Py.strip (Py.strip s) = Py.strip s.
Proof.
  destruct (Py.strip s) as [ | c r] eqn:E; [done | ].
  pose proof (strip_head s c r E) as Hc.
  unfold Py.strip at 1. simpl Py.lstrip. rewrite Hc.
  rewrite <- E. unfold Py.strip. apply rstrip_idem.
Qed.

Lemma list_of_append (s t : string) :
  list_ascii_of_string (s +:+ t)
  = list_ascii_of_string s ++ list_ascii_of_string t.
Proof.
  induction s as [ | a s IH]; [done | ].
  rewrite append_cons. simpl. by rewrite IH.
Qed.

Lemma list_of_replace old new s :
  list_ascii_of_string (Py.replace old new s)
  = map (fun c : ascii => if Ascii.eqb c old then new else c)
      (list_ascii_of_string s).
Proof. induction s as [ | a s IH]; simpl; [done | ]. by rewrite IH. Qed.

Lemma all_space_chars s :
  Py.all_space s = true ->
  Forall (fun c => Py.isspace c = true) (list_ascii_of_string s).
Proof.
  induction s as [ | a s IH]; simpl; [constructor | ].
  intros [Ha Hs]%andb_prop. constructor; [done | by apply IH].
Qed.

(** What [lstrip] and [rstrip] cut off is whitespace. *)
Lemma lstrip_split s :
  exists pre, s = pre +:+ Py.lstrip s /\ Py.all_space pre = true.
Proof.
  induction s as [ | a s (pre & IH & Hpre)]; simpl; [by exists "" | ].
  destruct (Py.isspace a) eqn:Ea; [ | by exists ""].
  exists (String a pre). rewrite append_cons. simpl.
  rewrite Ea, Hpre. split; [by f_equal | done].
Qed.

Lemma rstrip_split s :
  exists post, s = Py.rstrip s +:+ post /\ Py.all_space post = true.
Proof.
  induction s as [ | a s (post & IH & Hpost)]; simpl; [by exists "" | ].
  destruct (Py.rstrip s) as [ | b t] eqn:E.
  - apply rstrip_empty in E.
    destruct (Py.isspace a) eqn:Ea.
    + exists (String a s). simpl. by rewrite Ea, E.
    + by exists s.
  - exists post. rewrite append_cons. split; [by f_equal | done].
Qed.

End Cleaning.

(** C4. [generate_embedding] raises the empty-input error exactly when the
    text is empty after normalisation, that is when the text is blank; then
    the provider is not called.  Otherwise the provider is called once, with
    the normalised text.  The normalised text is the text with each newline
    turned into a space and the whitespace at both ends cut off: it is what
    is left of the text with spaces for newlines between a run of
    whitespace before it and a run of whitespace after it, and it neither
    starts nor ends with a whitespace character. *)
Theorem generate_embedding_empty_input env text w :
  let collapsed :=
    map (fun c : ascii => if Ascii.eqb c "010"%char then " "%char else c)
      (list_ascii_of_string text) in
  (result_of (EmbeddingService.generate_embedding env text) w = Raise EmptyInput
   <-> EmbeddingService.clean text = "")
  /\ (EmbeddingService.clean text = "" <-> Py.all_space text = true)
  /\ trace (world_after (EmbeddingService.generate_embedding env text) w)
     = trace w
       ++ (if Py.truthy (EmbeddingService.clean text)
           then [EvEmbed (InStr (EmbeddingService.clean text))]
           else [])
  /\ (exists pre post,
        collapsed
        = pre ++ list_ascii_of_string (EmbeddingService.clean text) ++ post
        /\ Forall (fun c => Py.isspace c = true) pre
        /\ Forall (fun c => Py.isspace c = true) post)
  /\ (forall c r, EmbeddingService.clean text = String c r ->
                  Py.isspace c = false)
  /\ (forall r c, EmbeddingService.clean text = r +:+ String c "" ->
                  Py.isspace c = false).
Proof.
  intros collapsed.
  split_and!; [ | apply clean_empty | | | apply strip_head | apply rstrip_last ].
  - unfold result_of. split.
    + intros H.
      destruct (decide (EmbeddingService.clean text = "")) as [ | Hne]; [done | ].
      rewrite generate_embedding_call in H by done. simpl in H.
      destruct (embeddings_create env _) as [msg | [ | v vs]]; discriminate.
    + intros H. by rewrite generate_embedding_blank.
  - unfold world_after.
    destruct (decide (EmbeddingService.clean text = "")) as [He | Hne].
    + rewrite generate_embedding_blank by done. rewrite He. simpl.
      by rewrite app_nil_r.
    + rewrite generate_embedding_call by done. simpl.
      by destruct (EmbeddingService.clean text).
  - unfold EmbeddingService.clean, Py.strip.
    destruct (lstrip_split (Py.replace Py.nl Py.sp text)) as (pre & Hpre & Hsp).
    destruct (rstrip_split (Py.lstrip (Py.replace Py.nl Py.sp text)))
      as (post & Hpost & Hsp').
    exists (list_ascii_of_string pre), (list_ascii_of_string post).
    split_and!; [ | by apply all_space_chars | by apply all_space_chars].
    rewrite <- !list_of_append, <- Hpost, <- Hpre.
    unfold collapsed. by rewrite list_of_replace.
Qed.

(** X8. The text [generate_embedding] and [generate_embeddings_batch] send
    to the provider holds no newline, neither starts nor ends with a
    whitespace character, and is unchanged by cleaning it again. *)
Theorem clean_is_normal text :
  ~ PyText.has_char Py.nl (EmbeddingService.clean text)
  /\ (forall c r, EmbeddingService.clean text = String c r ->
                  Py.isspace c = false)
  /\ (forall r c, EmbeddingService.clean text = r +:+ String c "" ->
                  Py.isspace c = false)
  /\ EmbeddingService.clean (EmbeddingService.clean text)
     = EmbeddingService.clean text.
Proof.
  assert (~ PyText.has_char Py.nl (EmbeddingService.clean text)) as Hnl.
  { unfold EmbeddingService.clean, Py.strip.
    intros H%rstrip_chars%lstrip_chars. by apply replace_removes in H. }
  split_and!; [done | | | ].
  - apply strip_head.
  - apply rstrip_last.
  - unfold EmbeddingService.clean at 1.
    rewrite (replace_absent _ _ _ Hnl). apply strip_idem.
Qed.

(** ** The document processor *)

Section Readers.

Lemma concat_cons_empty (x : string) (l : list string) :
  String.concat "" (x :: l) = x +:+ String.concat "" l.
Proof. destruct l; simpl; [by rewrite append_empty_r | done]. Qed.

Lemma fold_left_append_strings {A} (f : A -> string) (l : list A) :
  forall init,
    fold_left (fun text a => text +:+ f a) l init
    = init +:+ String.concat "" (map f l).
Proof.
  induction l as [ | a l IH]; intros init.
  - simpl. by rewrite append_empty_r.
  - simpl fold_left. rewrite IH. simpl map. rewrite concat_cons_empty.
    by rewrite append_assoc.
Qed.

Lemma all_space_append (s t : string) :
  Py.all_space (s +:+ t) = Py.all_space s && Py.all_space t.
Proof.
  induction s as [ | c s IH]; [done | ].
  rewrite append_cons. simpl. rewrite IH. by rewrite andb_assoc.
Qed.

Lemma all_space_concat (l : list string) :
  Py.all_space (String.concat "" l) = forallb Py.all_space l.
Proof.
  induction l as [ | x l IH]; [done | ].
  rewrite concat_cons_empty, all_space_append, IH. done.
Qed.

Lemma join_lines_concat parts :
  Readers.join_lines parts
  = String.concat "" (map (fun part => part +:+ Py.NL) parts).
Proof. unfold Readers.join_lines. by rewrite fold_left_append_strings. Qed.

End Readers.

(** X9. [_read_pdf] (and [_read_docx]) return the texts of the pages (the
    paragraphs) in order, each followed by a newline.  The result is blank
    exactly when every page is blank, so a PDF without text, or with no
    page, is not taken by [load_documents]. *)
Theorem read_pdf_blank pages :
  Readers._read_pdf pages
  = String.concat "" (map (fun page => page +:+ Py.NL) pages)
  /\ Readers._read_docx pages = Readers._read_pdf pages
  /\ (Py.truthy (Py.strip (Readers._read_pdf pages)) = false
      <-> Forall (fun page => Py.all_space page = true) pages)
  /\ (forall file_path,
        fe_read file_path = inr (Readers._read_pdf pages) ->
        Forall (fun page => Py.all_space page = true) pages ->
        DocumentProcessor.yields_content file_path = false).
Proof.
  assert (Py.truthy (Py.strip (Readers._read_pdf pages)) = false
          <-> Forall (fun page => Py.all_space page = true) pages) as Hblank.
  { rewrite truthy_false, strip_empty. unfold Readers._read_pdf.
    rewrite join_lines_concat, all_space_concat.
    rewrite forallb_forall, Forall_forall. split.
    - intros H page Hpage.
      specialize (H (page +:+ Py.NL)). rewrite all_space_append in H.
      apply andb_prop in H; [tauto | ].
      apply in_map_iff. exists page. split; [done | ].
      by apply list_elem_of_In.
    - intros H x (page & <- & Hpage%list_elem_of_In)%in_map_iff.
      rewrite all_space_append, (H page Hpage). done. }
  split_and!; [apply join_lines_concat | done | exact Hblank | ].
  intros file_path Hread Hpages. unfold DocumentProcessor.yields_content.
  rewrite Hread. apply Hblank in Hpages. rewrite Hpages. apply andb_false_r.
Qed.

Section Loading.
Import DocumentProcessor.

Lemma load_loop_selects paths :
  forall documents w,
    load_loop documents paths w
    = (Ok (documents
           ++ map Readers.document_of (List.filter yields_content paths)), w).
Proof.
  induction paths as [ | file_path paths IH]; intros documents w; simpl.
  - by rewrite app_nil_r.
  - destruct (yields_content file_path) eqn:E.
    + destruct (load_one_yields documents file_path w E) as (text & Hread & Hone).
      erewrite bind_ok by exact Hone. rewrite IH. simpl.
      unfold Readers.document_of at 2. rewrite Hread.
      by rewrite <- app_assoc.
    + erewrite bind_ok by (by apply load_one_barren). apply IH.
Qed.

End Loading.

(** X10. [load_documents] raises [FileNotFoundError] for a directory that
    does not exist.  Otherwise it never raises and returns, in the order of
    the paths, one document for each path with a supported suffix (compared
    in lower case) whose reader returns a text that is not blank: the text
    as read and the path's metadata.  Paths that fail to read, blank files
    and other suffixes are passed over; the world is not changed. *)
Theorem load_documents_selects directory w :
  DocumentProcessor.load_documents directory w
  = match doc_dirs w !! directory with
    | None =>
        (Raise (FileNotFoundError ("Directory not found: " +:+ directory)), w)
    | Some paths =>
        (Ok (map Readers.document_of
               (List.filter DocumentProcessor.yields_content paths)), w)
    end
  /\ (forall file_path,
        DocumentProcessor.yields_content file_path = true ->
        existsb (String.eqb (Py.lower (fe_suffix file_path)))
          [".txt"; ".pdf"; ".docx"] = true
        /\ fe_read file_path = inr (chunk_content (Readers.document_of file_path))
        /\ Py.strip (chunk_content (Readers.document_of file_path)) <> ""
        /\ chunk_metadata (Readers.document_of file_path) !! "file_type"
           = Some (MStr (fe_suffix file_path))).
Proof.
  split.
  - unfold DocumentProcessor.load_documents, bind, get_world. simpl.
    destruct (doc_dirs w !! directory) as [paths | ]; [ | done].
    apply (load_loop_selects paths []).
  - intros file_path H. unfold DocumentProcessor.yields_content in H.
    apply andb_prop in H as [Hext Hread]. unfold Readers.document_of. simpl.
    destruct (fe_read file_path) as [msg | text]; [done | ].
    split_and!; [done | done | | done].
    intros Hblank. by rewrite Hblank in Hread.
Qed.

(** X11. [chunk_documents] returns the pieces the splitter gives for each
    document, in the order of the documents and of the pieces.  Each chunk
    has as [chunk_id] its position among the pieces of its document, as
    [total_chunks] their number, and otherwise the metadata of its
    document. *)
Theorem chunk_documents_pieces env documents :
  map chunk_content (DocumentProcessor.chunk_documents env documents)
  = concat (map (fun doc => split_text env (chunk_content doc)) documents)
  /\ (forall chunk,
        In chunk (DocumentProcessor.chunk_documents env documents) ->
        exists doc (i : nat),
          In doc documents
          /\ split_text env (chunk_content doc) !! i = Some (chunk_content chunk)
          /\ chunk_metadata chunk !! "chunk_id" = Some (MInt (Z.of_nat i))
          /\ chunk_metadata chunk !! "total_chunks"
             = Some (MInt (Z.of_nat
                             (length (split_text env (chunk_content doc)))))
          /\ forall key,
               key <> "chunk_id" -> key <> "total_chunks" ->
               chunk_metadata chunk !! key = chunk_metadata doc !! key).
Proof.
  unfold DocumentProcessor.chunk_documents. split.
  - induction documents as [ | doc documents IH]; [done | ].
    simpl. rewrite map_app, IH. f_equal.
    apply list_eq. intros i.
    change (map ?h ?x) with (h <$> x).
    rewrite list_lookup_fmap, list_lookup_imap.
    by destruct (split_text env (chunk_content doc) !! i).
  - intros chunk (pieces & Hpieces & Hin)%in_concat.
    apply in_map_iff in Hpieces as (doc & <- & Hdoc).
    apply list_elem_of_In, elem_of_lookup_imap in Hin as (i & piece & -> & Hi).
    exists doc, i. simpl. split_and!; [done | done | | | ].
    + rewrite lookup_insert_ne by done. apply lookup_insert_eq.
    + apply lookup_insert_eq.
    + intros key H1 H2. by rewrite !lookup_insert_ne.
Qed.

(** ** The vector index client: answers with columns of unequal length *)

Section Ragged.
Import VectorStore.

Lemma for_each_raise {A B} (f : A -> M B) l1 a l2 w e :
  (forall x, x ∈ l1 -> exists b, f x w = (Ok b, w)) ->
  f a w = (Raise e, w) ->
  for_each f (l1 ++ a :: l2) w = (Raise e, w).
Proof.
  intros Hl1 Ha. induction l1 as [ | x l1 IH]; simpl.
  - by erewrite bind_raise by exact Ha.
  - destruct (Hl1 x ltac:(left)) as [b Hb].
    erewrite bind_ok by exact Hb.
    erewrite bind_raise; [done | ]. apply IH. intros y Hy. apply Hl1. by right.
Qed.

(** One round of the loop of [similarity_search]. *)
Lemma search_entry_run (docs0 : list string) (metas0 : list Metadata)
    (dists0 : list Q) (i : nat) w :
  (docs <- getitem [docs0] 0 ;;
   doc <- getitem docs i ;;
   metas <- getitem [metas0] 0 ;;
   meta <- getitem metas i ;;
   dists <- getitem [dists0] 0 ;;
   dist <- getitem dists i ;;
   ret (mkRetrievedDoc doc meta (1 - dist)%Q))%py w
  = (match docs0 !! i, metas0 !! i, dists0 !! i with
     | Some doc, Some meta, Some dist =>
         Ok (mkRetrievedDoc doc meta (1 - dist)%Q)
     | _, _, _ => Raise IndexError
     end, w).
Proof.
  unfold bind, getitem. simpl.
  destruct (docs0 !! i), (metas0 !! i), (dists0 !! i); done.
Qed.

End Ragged.

(** X12. When the index answers with a column (documents, metadata or
    distances) shorter than the column of ids, [similarity_search] raises
    [IndexError]: it returns no partial list. *)
Theorem similarity_search_ragged env v k w ids0 docs0 metas0 dists0 :
  collection_query env (coll w) v k
  = inr (mkQueryResult [ids0] [docs0] [metas0] [dists0]) ->
  (length docs0 < length ids0 \/ length metas0 < length ids0
   \/ length dists0 < length ids0)%nat ->
  VectorStore.similarity_search env v k w
  = (Raise IndexError, with_trace (trace w ++ [EvQuery v k]) w).
Proof.
  intros Hq Hshort. unfold VectorStore.similarity_search.
  unfold bind at 1, get_world at 1. unfold bind at 1, emit at 1.
  unfold bind at 1, external. simpl coll. rewrite Hq. simpl.
  erewrite bind_ok by reflexivity.
  set (m := Nat.min (Nat.min (length docs0) (length metas0)) (length dists0)).
  assert (m < length ids0)%nat as Hm by lia.
  replace (length ids0) with (m + S (length ids0 - S m))%nat by lia.
  rewrite seq_app. simpl seq.
  apply for_each_raise.
  - intros i Hi%elem_of_seq. rewrite search_entry_run.
    destruct (lookup_lt_is_Some_2 docs0 i ltac:(lia)) as [doc ->].
    destruct (lookup_lt_is_Some_2 metas0 i ltac:(lia)) as [meta ->].
    destruct (lookup_lt_is_Some_2 dists0 i ltac:(lia)) as [dist ->].
    eauto.
  - rewrite search_entry_run.
    destruct (decide (length docs0 <= m)%nat) as [Hd | Hd];
      [by rewrite (lookup_ge_None_2 docs0 m Hd) | ].
    destruct (docs0 !! m); [ | done].
    destruct (decide (length metas0 <= m)%nat) as [Hm' | Hm'];
      [by rewrite (lookup_ge_None_2 metas0 m Hm') | ].
    destruct (metas0 !! m); [ | done].
    assert (length dists0 <= m)%nat as Hs by lia.
    by rewrite (lookup_ge_None_2 dists0 m Hs).
Qed.

Lemma similarity_search_ragged_witness :
  VectorStore.similarity_search Cases.env_ragged [1%Q] 2 Demo.world0
  = (Raise IndexError,
     with_trace (trace Demo.world0 ++ [EvQuery [1%Q] 2]) Demo.world0).
Proof.
  apply (similarity_search_ragged Cases.env_ragged [1%Q] 2 Demo.world0
           ["id-0"; "id-1"] ["alpha"] [∅; ∅] [0%Q; 1%Q]).
  - reflexivity.
  - left. simpl. lia.
Defined.

(** ** The prompt *)

Section Context.

Lemma build_loop_numbered env documents :
  forall i context,
    RAGService.build_loop env i documents context
    = context
      +:+ String.concat ""
            (imap (fun j doc => RAGService.render_document env (i + j) doc)
               documents).
Proof.
  induction documents as [ | doc documents IH]; intros i context.
  - simpl. by rewrite append_empty_r.
  - simpl RAGService.build_loop. rewrite IH.
    rewrite imap_cons, concat_cons_empty, append_assoc, Nat.add_0_r.
    do 3 f_equal. apply imap_ext. intros j d _. simpl. f_equal. lia.
Qed.

End Context.

(** X13. The context is the header followed by one block per retrieved
    document, in the order retrieved and numbered from 1: a line with the
    number, the source and the relevance, then the content and an empty
    line.  The source is the [filename] of the metadata, or [unknown]
    without one. *)
Theorem build_context_numbered env documents :
  RAGService._build_context env documents
  = ("Relevant information from documents:" +:+ Py.NL +:+ Py.NL)
    +:+ String.concat ""
          (imap (fun j doc =>
                   ("[Document " +:+ Py.str_of_int (Z.of_nat (S j))
                    +:+ "] (Source: "
                    +:+ match metadata doc !! "filename" with
                        | Some (MStr name) => name
                        | Some (MInt z) => Py.str_of_int z
                        | None => "unknown"
                        end
                    +:+ ", Relevance: "
                    +:+ format_2f env (relevance_score doc) +:+ ")" +:+ Py.NL)
                   +:+ (content doc +:+ Py.NL +:+ Py.NL))
             documents).
Proof.
  unfold RAGService._build_context. rewrite build_loop_numbered.
  f_equal. f_equal. apply imap_ext. intros j doc _.
  unfold RAGService.render_document, RAGService.format_meta. simpl.
  by destruct (metadata doc !! "filename") as [[name | z] | ].
Qed.

(** ** The query pipeline, in general *)

Section Stages.
Variable env : Env.

Lemma for_each_stateless {A B} (f : A -> M B) l :
  (forall a w w', f a w = (fst (f a w'), w)) ->
  forall w w', for_each f l w = (fst (for_each f l w'), w).
Proof.
  intros Hf. induction l as [ | a l IH]; intros w w'; [done | ].
  simpl. unfold bind at 1 3.
  rewrite (Hf a w w'), (Hf a w' w').
  destruct (fst (f a w')) as [b | e]; [ | done].
  unfold bind. rewrite (IH w w'), (IH w' w').
  by destruct (fst (for_each f l w')).
Qed.

(** The rounds of the loop of [similarity_search] over an answer. *)
Lemma search_rows_stateless (results : QueryResult) w w' :
  let rows :=
    (ids0 <- VectorStore.getitem (ids results) 0 ;;
     for_each
       (fun i =>
          docs0 <- VectorStore.getitem (documents results) 0 ;;
          doc <- VectorStore.getitem docs0 i ;;
          metas0 <- VectorStore.getitem (metadatas results) 0 ;;
          meta <- VectorStore.getitem metas0 i ;;
          dists0 <- VectorStore.getitem (distances results) 0 ;;
          dist <- VectorStore.getitem dists0 i ;;
          ret (mkRetrievedDoc doc meta (1 - dist)%Q))
       (seq 0 (length ids0)))%py in
  rows w = (fst (rows w'), w).
Proof.
  intros rows. unfold rows. unfold bind at 1 8, VectorStore.getitem at 1 8.
  destruct (ids results !! 0%nat) as [ids0 | ]; [ | done]. simpl.
  apply for_each_stateless. intros i w1 w2.
  unfold bind, VectorStore.getitem.
  destruct (documents results !! 0%nat) as [docs0 | ]; [ | done]. simpl.
  destruct (docs0 !! i); [ | done]. simpl.
  destruct (metadatas results !! 0%nat) as [metas0 | ]; [ | done]. simpl.
  destruct (metas0 !! i); [ | done]. simpl.
  destruct (distances results !! 0%nat) as [dists0 | ]; [ | done]. simpl.
  by destruct (dists0 !! i).
Qed.

(** [similarity_search] reads the collection only, and adds one event. *)
Lemma similarity_search_outcome v k w w' :
  coll w = coll w' ->
  VectorStore.similarity_search env v k w
  = (result_of (VectorStore.similarity_search env v k) w',
     with_trace (trace w ++ [EvQuery v k]) w).
Proof.
  intros Hcoll. unfold result_of, VectorStore.similarity_search.
  unfold bind at 1 9, get_world. unfold bind at 1 9, emit.
  unfold bind at 1 9, external. simpl coll. rewrite Hcoll.
  destruct (collection_query env (coll w') v k) as [msg | results]; [done | ].
  apply (search_rows_stateless results).
Qed.

Lemma generate_embedding_effect text w r w' :
  EmbeddingService.generate_embedding env text w = (r, w') ->
  conv_files w' = conv_files w /\ coll w' = coll w.
Proof.
  destruct (decide (EmbeddingService.clean text = "")) as [He | Hne].
  - rewrite generate_embedding_blank by done. by intros [= <- <-].
  - rewrite generate_embedding_call by done. by intros [= <- <-].
Qed.

Lemma get_conversation_context_effect uid n w r w' :
  MemoryService.get_conversation_context env uid n w = (r, w') ->
  trace w' = trace w /\ conv_files w' = conv_files w /\ coll w' = coll w.
Proof.
  unfold MemoryService.get_conversation_context, bind.
  destruct (MemoryService.get_history env uid w) as [[h | e] w1] eqn:Hget;
    intros [= <- <-]; by apply get_history_frame in Hget.
Qed.

(** [query] never writes to the index, and a query that raises leaves
    the conversation files as they were. *)
Lemma query_effect cfg uid query k w r w' :
  RAGService.query env cfg uid query k w = (r, w') ->
  coll w' = coll w /\ (forall e, r = Raise e -> conv_files w' = conv_files w).
Proof.
  unfold RAGService.query. unfold bind at 1.
  destruct (EmbeddingService.generate_embedding env query w)
    as [[v | e1] w1] eqn:H1;
    apply generate_embedding_effect in H1 as (Hf1 & Hc1);
    [ | by intros [= <- <-]].
  unfold bind at 1.
  rewrite (similarity_search_outcome v k w1 w1 eq_refl).
  destruct (result_of (VectorStore.similarity_search env v k) w1)
    as [docs | e2]; [ | by intros [= <- <-]].
  unfold bind at 1.
  destruct (MemoryService.get_conversation_context env uid 3 _)
    as [[history | e3] w3] eqn:H3;
    apply get_conversation_context_effect in H3 as (_ & Hf3 & Hc3);
    simpl in Hf3, Hc3;
    [ | intros [= <- <-]; split; [congruence | intros; congruence]].
  unfold bind at 1. rewrite generate_response_run.
  destruct (chat_completions_create env _ _) as [msg | answer];
    [intros [= <- <-]; simpl; split; [congruence | intros; congruence] | ].
  unfold bind at 1.
  destruct (MemoryService.add_interaction env cfg uid query answer
              (Some docs) _) as [[[] | e5] w5] eqn:H5;
    apply add_interaction_effect in H5 as (_ & Hc5 & _ & Hf5);
    simpl in Hc5, Hf5; intros [= <- <-].
  - split; [congruence | done].
  - split; [congruence | ]. intros e _. rewrite (Hf5 e5 eq_refl). congruence.
Qed.

(** The run of [query] when the query is not blank, the provider embeds
    it, the index answers and the record is readable. *)
Lemma query_run cfg uid query k w v rest docs old :
  EmbeddingService.clean query <> "" ->
  embeddings_create env (InStr (EmbeddingService.clean query)) = inr (v :: rest) ->
  result_of (VectorStore.similarity_search env v k) w = Ok docs ->
  MemoryService.recorded env uid w = Some old ->
  let prompt :=
    RAGService.user_message query (RAGService._build_context env docs)
      (MemoryService.render_context (Py.slice_from (- 3) old)) in
  exists w',
    RAGService.query env cfg uid query k w
    = (match chat_completions_create env RAGService.system_message prompt with
       | inl msg => Raise (ExternalError msg)
       | inr answer => Ok (answer, docs)
       end, w')
    /\ trace w'
       = trace w ++ [EvEmbed (InStr (EmbeddingService.clean query));
                     EvQuery v k;
                     EvChat RAGService.system_message prompt]
    /\ match chat_completions_create env RAGService.system_message prompt with
       | inl _ => conv_files w' = conv_files w
       | inr answer =>
           exists ts,
             MemoryService.recorded env uid w'
             = Some (MemoryService.sliding_window
                       (max_conversation_history cfg)
                       (old ++ [mkInteraction ts query answer
                                  (Z.of_nat (length docs))]))
       end.
Proof.
  intros Hne Hemb Hsearch Hold prompt. unfold RAGService.query.
  erewrite bind_ok.
  2:{ rewrite generate_embedding_call by done. by rewrite Hemb. }
  erewrite bind_ok.
  2:{ rewrite (similarity_search_outcome v k
                 (with_trace
                    (trace w ++ [EvEmbed (InStr (EmbeddingService.clean query))])
                    w)
                 w eq_refl).
      by rewrite Hsearch. }
  set (w2 := with_trace _ (with_trace _ w)).
  assert (MemoryService.recorded env uid w2 = Some old) as Hold2.
  { by rewrite <- Hold; apply recorded_files. }
  destruct (recorded_Some env uid w2 old Hold2) as (h & w3 & Hget & <-).
  destruct (get_history_frame _ _ _ _ _ Hget) as (Htr & Hfiles & _).
  erewrite bind_ok by (by apply get_conversation_context_run).
  unfold bind at 1. rewrite generate_response_run.
  change (RAGService.user_message query _ _) with prompt.
  destruct (chat_completions_create env RAGService.system_message prompt)
    as [msg | answer].
  - eexists. split_and!; [reflexivity | | ].
    + simpl. rewrite Htr. unfold w2. simpl. by rewrite <- !app_assoc.
    + simpl. by rewrite Hfiles.
  - set (w4 := with_trace _ w3).
    assert (MemoryService.recorded env uid w4 = Some (messages h)) as Hold4.
    { rewrite <- Hold2. apply recorded_files. simpl. by rewrite Hfiles. }
    destruct (add_interaction_recorded env cfg uid query answer (Some docs)
                w4 _ Hold4) as (ts & w5 & Hrun & Hrec).
    pose proof (add_interaction_effect env cfg uid _ _ _ _ _ _ Hrun)
      as (Htr5 & _).
    erewrite bind_ok by exact Hrun.
    eexists. split_and!; [reflexivity | | ].
    + rewrite Htr5. unfold w4. simpl. rewrite Htr. unfold w2. simpl.
      by rewrite <- !app_assoc.
    + exists ts. rewrite Hrec. by rewrite retrieved_count_length.
Qed.

End Stages.

(** X14. For a user id that names a file of its own: when the query is
    not blank, the provider embeds it, the index answers and the
    generation client answers, [query] returns that answer
    with the documents retrieved.  The clients are called once each, in the
    order embedding, index, generation; the embedding is asked for the
    cleaned query, while the prompt and the stored interaction hold the
    query as given.  The index is not written, and the user's record
    becomes the window of the old messages followed by the new interaction,
    which counts the retrieved documents. *)
Theorem query_answers env cfg uid query k w v rest docs old answer :
  UserFiles.plain_user_id uid ->
  EmbeddingService.clean query <> "" ->
  embeddings_create env (InStr (EmbeddingService.clean query)) = inr (v :: rest) ->
  result_of (VectorStore.similarity_search env v k) w = Ok docs ->
  MemoryService.recorded env uid w = Some old ->
  chat_completions_create env RAGService.system_message
    (RAGService.user_message query (RAGService._build_context env docs)
       (MemoryService.render_context (Py.slice_from (- 3) old)))
  = inr answer ->
  let w' := world_after (RAGService.query env cfg uid query k) w in
  result_of (RAGService.query env cfg uid query k) w = Ok (answer, docs)
  /\ trace w'
     = trace w
       ++ [EvEmbed (InStr (EmbeddingService.clean query));
           EvQuery v k;
           EvChat RAGService.system_message
             (RAGService.user_message query (RAGService._build_context env docs)
                (MemoryService.render_context (Py.slice_from (- 3) old)))]
  /\ coll w' = coll w
  /\ exists ts,
       MemoryService.recorded env uid w'
       = Some (MemoryService.sliding_window (max_conversation_history cfg)
                 (old ++ [mkInteraction ts query answer
                            (Z.of_nat (length docs))])).
Proof.
  intros _ Hne Hemb Hsearch Hold Hchat w'.
  destruct (query_run env cfg uid query k w v rest docs old Hne Hemb Hsearch
              Hold) as (w1 & Hrun & Htrace & Hstore).
  rewrite Hchat in Hrun, Hstore.
  unfold w', result_of, world_after. rewrite Hrun. simpl.
  split_and!; [done | done | | done].
  by apply (query_effect env cfg uid query k w _ w1 Hrun).
Qed.

Lemma query_answers_witness :
  exists docs,
    result_of (RAGService.query Demo.env default_settings "u" "what?" 2)
      Demo.world_three
    = Ok ("I don't know.", docs)
    /\ map content docs = ["alpha"; "beta"].
Proof.
  eexists. split.
  - refine (proj1 (query_answers Demo.env default_settings "u" "what?" 2
                     Demo.world_three (Demo.embed_text "what?") [] _ []
                     "I don't know." _ _ _ _ _ _)).
    + plain_id.
    + vm_compute. discriminate.
    + reflexivity.
    + vm_compute. reflexivity.
    + reflexivity.
    + reflexivity.
  - reflexivity.
Defined.

(** X15. A query that fails before its answer is there stores nothing:
    the conversation files and the index are as before.  A blank query
    raises the empty-input error before any client is called; an error of
    the embedding provider is raised after that one call; an error of the
    search is raised after the embedding and the search; and when the
    generation client fails, after the embedding, the search and the
    reading of the record, its error is raised and no interaction is
    stored for the query. *)
Theorem failed_query_keeps_store env cfg uid query k w :
  UserFiles.plain_user_id uid ->
  let run := RAGService.query env cfg uid query k in
  (EmbeddingService.clean query = "" -> run w = (Raise EmptyInput, w))
  /\ (forall msg,
        EmbeddingService.clean query <> "" ->
        embeddings_create env (InStr (EmbeddingService.clean query)) = inl msg ->
        run w
        = (Raise (ExternalError msg),
           with_trace (trace w ++ [EvEmbed (InStr (EmbeddingService.clean query))])
             w))
  /\ (forall v rest e,
        EmbeddingService.clean query <> "" ->
        embeddings_create env (InStr (EmbeddingService.clean query))
        = inr (v :: rest) ->
        result_of (VectorStore.similarity_search env v k) w = Raise e ->
        result_of run w = Raise e
        /\ conv_files (world_after run w) = conv_files w
        /\ coll (world_after run w) = coll w
        /\ trace (world_after run w)
           = trace w ++ [EvEmbed (InStr (EmbeddingService.clean query));
                         EvQuery v k])
  /\ (forall v rest docs old msg,
        EmbeddingService.clean query <> "" ->
        embeddings_create env (InStr (EmbeddingService.clean query))
        = inr (v :: rest) ->
        result_of (VectorStore.similarity_search env v k) w = Ok docs ->
        MemoryService.recorded env uid w = Some old ->
        chat_completions_create env RAGService.system_message
          (RAGService.user_message query (RAGService._build_context env docs)
             (MemoryService.render_context (Py.slice_from (- 3) old)))
        = inl msg ->
        result_of run w = Raise (ExternalError msg)
        /\ conv_files (world_after run w) = conv_files w
        /\ coll (world_after run w) = coll w
        /\ trace (world_after run w)
           = trace w
             ++ [EvEmbed (InStr (EmbeddingService.clean query));
                 EvQuery v k;
                 EvChat RAGService.system_message
                   (RAGService.user_message query
                      (RAGService._build_context env docs)
                      (MemoryService.render_context
                         (Py.slice_from (- 3) old)))]).
Proof.
  intros _ run. unfold run. split_and!.
  - intros Hblank. unfold RAGService.query.
    by erewrite bind_raise by (by apply generate_embedding_blank).
  - intros msg Hne Hemb. unfold RAGService.query.
    erewrite bind_raise; [reflexivity | ].
    rewrite generate_embedding_call by done. by rewrite Hemb.
  - intros v rest e Hne Hemb Hsearch.
    assert (RAGService.query env cfg uid query k w
            = (Raise e,
               with_trace
                 (trace w ++ [EvEmbed (InStr (EmbeddingService.clean query));
                              EvQuery v k])
                 w)) as Hrun.
    { unfold RAGService.query.
      erewrite bind_ok.
      2:{ rewrite generate_embedding_call by done. by rewrite Hemb. }
      erewrite bind_raise; [reflexivity | ].
      rewrite (similarity_search_outcome env v k
                 (with_trace
                    (trace w ++ [EvEmbed (InStr (EmbeddingService.clean query))])
                    w)
                 w eq_refl).
      rewrite Hsearch. simpl. by rewrite <- app_assoc. }
    unfold result_of, world_after. rewrite Hrun. by simpl.
  - intros v rest docs old msg Hne Hemb Hsearch Hold Hchat.
    destruct (query_run env cfg uid query k w v rest docs old Hne Hemb Hsearch
                Hold) as (w1 & Hrun & Htrace & Hstore).
    rewrite Hchat in Hrun, Hstore.
    unfold result_of, world_after. rewrite Hrun. simpl.
    split_and!; [done | done | | done].
    by apply (query_effect env cfg uid query k w _ w1 Hrun).
Qed.

Lemma failed_query_keeps_store_witness :
  result_of (RAGService.query Cases.env_mute default_settings "u" "what?" 5)
    Demo.world_two
  = Raise (ExternalError "rate limit")
  /\ conv_files
       (world_after (RAGService.query Cases.env_mute default_settings "u" "what?" 5)
          Demo.world_two)
     = conv_files Demo.world_two.
Proof.
  pose proof (proj2 (proj2 (proj2
                (failed_query_keeps_store Cases.env_mute default_settings "u"
                   "what?" 5 Demo.world_two ltac:(plain_id))))
                (Demo.embed_text "what?") [] []
                [mkInteraction "t2" "hi" "hello" 0;
                 mkInteraction "t4" "and then?" "that is all" 0]
                "rate limit") as H.
  destruct H as (Hresult & Hfiles & _).
  - vm_compute. discriminate.
  - reflexivity.
  - vm_compute. reflexivity.
  - vm_compute. reflexivity.
  - reflexivity.
  - split; [exact Hresult | exact Hfiles].
Defined.

Section TwoQueries.
Import MemoryService.

Lemma render_context_snoc msgs msg :
  render_context (msgs ++ [msg])
  = fold_left (fun context m => context +:+ render_message m) msgs
      ("Previous conversation:" +:+ Py.NL)
    +:+ render_message msg.
Proof.
  destruct msgs as [ | m msgs]; [done | ].
  change (render_context ((m :: msgs) ++ [msg]))
    with (fold_left (fun context m => context +:+ render_message m)
            ((m :: msgs) ++ [msg]) ("Previous conversation:" +:+ Py.NL)).
  by rewrite fold_left_app.
Qed.

End TwoQueries.

(** X16. Two queries in a row of one user, whose id names a file of its
    own, the first one answered: the
    prompt of the second query carries, at the end of its conversation
    part, the user line and the assistant line of the first query and its
    answer (for a history bound that is not negative). *)
Theorem second_query_sees_first env cfg uid q1 q2 k w v1 rest1 docs1 old a1
    v2 rest2 docs2 :
  UserFiles.plain_user_id uid ->
  0 <= max_conversation_history cfg ->
  EmbeddingService.clean q1 <> "" ->
  embeddings_create env (InStr (EmbeddingService.clean q1)) = inr (v1 :: rest1) ->
  result_of (VectorStore.similarity_search env v1 k) w = Ok docs1 ->
  MemoryService.recorded env uid w = Some old ->
  chat_completions_create env RAGService.system_message
    (RAGService.user_message q1 (RAGService._build_context env docs1)
       (MemoryService.render_context (Py.slice_from (- 3) old)))
  = inr a1 ->
  EmbeddingService.clean q2 <> "" ->
  embeddings_create env (InStr (EmbeddingService.clean q2)) = inr (v2 :: rest2) ->
  result_of (VectorStore.similarity_search env v2 k) w = Ok docs2 ->
  let w1 := world_after (RAGService.query env cfg uid q1 k) w in
  exists earlier,
    trace (world_after (RAGService.query env cfg uid q2 k) w1)
    = trace w1
      ++ [EvEmbed (InStr (EmbeddingService.clean q2));
          EvQuery v2 k;
          EvChat RAGService.system_message
            (RAGService.user_message q2 (RAGService._build_context env docs2)
               (earlier
                +:+ (("User: " +:+ q1 +:+ Py.NL)
                     +:+ ("Assistant: " +:+ a1 +:+ Py.NL +:+ Py.NL))))].
Proof.
  intros _ Hmax Hne1 Hemb1 Hs1 Hold Hchat1 Hne2 Hemb2 Hs2 w1.
  destruct (query_run env cfg uid q1 k w v1 rest1 docs1 old Hne1 Hemb1 Hs1
              Hold) as (w1' & Hrun1 & _ & Hstore).
  rewrite Hchat1 in Hrun1, Hstore. destruct Hstore as (ts & Hrec).
  assert (w1 = w1') as -> by (unfold w1, world_after; by rewrite Hrun1).
  pose proof (query_effect env cfg uid q1 k w _ w1' Hrun1) as (Hcoll & _).
  assert (result_of (VectorStore.similarity_search env v2 k) w1' = Ok docs2)
    as Hs2'.
  { unfold result_of at 1.
    by rewrite (similarity_search_outcome env v2 k w1' w Hcoll). }
  destruct (query_run env cfg uid q2 k w1' v2 rest2 docs2 _ Hne2 Hemb2 Hs2'
              Hrec) as (w2 & Hrun2 & Htrace2 & _).
  destruct (sliding_window_snoc (max_conversation_history cfg) old
              (mkInteraction ts q1 a1 (Z.of_nat (length docs1))) Hmax)
    as (kept & Hkept & _).
  rewrite Hkept in Htrace2.
  change (Z.neg 3) with (Z.opp 3) in Htrace2.
  rewrite slice_from_last in Htrace2 by lia.
  rewrite drop_app_le in Htrace2 by (rewrite length_app; simpl; lia).
  rewrite render_context_snoc in Htrace2.
  eexists. unfold world_after. rewrite Hrun2. simpl. exact Htrace2.
Qed.

Lemma second_query_sees_first_witness :
  exists earlier,
    trace
      (world_after (RAGService.query Demo.env default_settings "u" "and?" 5)
         (world_after (RAGService.query Demo.env default_settings "u" "what?" 5)
            Demo.world0))
    = trace
        (world_after (RAGService.query Demo.env default_settings "u" "what?" 5)
           Demo.world0)
      ++ [EvEmbed (InStr "and?");
          EvQuery (Demo.embed_text "and?") 5;
          EvChat RAGService.system_message
            (RAGService.user_message "and?"
               (RAGService._build_context Demo.env [])
               (earlier
                +:+ (("User: " +:+ "what?" +:+ Py.NL)
                     +:+ ("Assistant: " +:+ "I don't know." +:+ Py.NL
                          +:+ Py.NL))))].
Proof.
  apply (second_query_sees_first Demo.env default_settings "u" "what?" "and?"
           5 Demo.world0 (Demo.embed_text "what?") [] [] [] "I don't know."
           (Demo.embed_text "and?") [] []).
  - plain_id.
  - simpl. lia.
  - vm_compute. discriminate.
  - reflexivity.
  - reflexivity.
  - reflexivity.
  - reflexivity.
  - vm_compute. discriminate.
  - reflexivity.
  - reflexivity.
Defined.

(** ** The ingestion pipeline, in general *)

(** X17. [index_documents] raises [FileNotFoundError], without calling a
    client, for a directory that does not exist.  Otherwise it loads and
    chunks the documents, asks the embedding client once for the cleaned
    texts of all chunks, and, if it gets as many embeddings as chunks, calls
    the index once with the chunks' own (uncleaned) texts and metadata; it
    returns the number of chunks.  With another number of embeddings it
    raises the length-mismatch error and the index is not called.  It never
    touches the conversation files. *)
Theorem index_documents_pipeline env directory w :
  match doc_dirs w !! directory with
  | None =>
      RAGService.index_documents env directory w
      = (Raise (FileNotFoundError ("Directory not found: " +:+ directory)), w)
  | Some paths =>
      let chunks :=
        DocumentProcessor.chunk_documents env
          (map Readers.document_of
             (List.filter DocumentProcessor.yields_content paths)) in
      let texts := map EmbeddingService.clean (map chunk_content chunks) in
      let ids := map (uuid4 env) (seq (uuids w) (length chunks)) in
      result_of (RAGService.index_documents env directory) w
      = match embeddings_create env (InList texts) with
        | inl msg => Raise (ExternalError msg)
        | inr embeddings =>
            if negb (length chunks =? length embeddings)%nat
            then Raise LengthMismatch
            else
              match collection_add env (coll w) ids embeddings
                      (map chunk_content chunks) (map chunk_metadata chunks) with
              | inl msg => Raise (ExternalError msg)
              | inr _ => Ok (Z.of_nat (length chunks))
              end
        end
      /\ trace (world_after (RAGService.index_documents env directory) w)
         = trace w
           ++ EvEmbed (InList texts)
              :: match embeddings_create env (InList texts) with
                 | inl _ => []
                 | inr embeddings =>
                     if negb (length chunks =? length embeddings)%nat
                     then []
                     else [EvAdd ids embeddings (map chunk_content chunks)
                             (map chunk_metadata chunks)]
                 end
      /\ conv_files (world_after (RAGService.index_documents env directory) w)
         = conv_files w
  end.
Proof.
  assert (DocumentProcessor.load_documents directory w
          = match doc_dirs w !! directory with
            | None =>
                (Raise (FileNotFoundError
                          ("Directory not found: " +:+ directory)), w)
            | Some paths =>
                (Ok (map Readers.document_of
                       (List.filter DocumentProcessor.yields_content paths)), w)
            end) as Hload.
  { unfold DocumentProcessor.load_documents, bind, get_world. simpl.
    destruct (doc_dirs w !! directory) as [paths | ]; [ | done].
    apply (load_loop_selects paths []). }
  unfold RAGService.index_documents, result_of, world_after.
  destruct (doc_dirs w !! directory) as [paths | ].
  - cbv zeta.
    set (chunks := DocumentProcessor.chunk_documents env _).
    set (texts := map EmbeddingService.clean (map chunk_content chunks)).
    set (ids := map (uuid4 env) (seq (uuids w) (length chunks))).
    erewrite bind_ok by exact Hload. fold chunks.
    unfold bind at 1 3 5. rewrite generate_embeddings_batch_call. fold texts.
    destruct (embeddings_create env (InList texts)) as [msg | embeddings];
      [done | ].
    unfold bind. rewrite add_documents_run. simpl uuids. simpl coll. fold ids.
    destruct (negb (length chunks =? length embeddings)%nat); [done | ].
    simpl. destruct (collection_add env _ _ _ _ _); simpl;
      by rewrite <- app_assoc.
  - by erewrite bind_raise by exact Hload.
Qed.

Example index_documents_pipeline_example :
  result_of (RAGService.index_documents Cases.env_split "./data/documents")
    Cases.world_mixed
  = Ok 2
  /\ trace (world_after
              (RAGService.index_documents Cases.env_split "./data/documents")
              Cases.world_mixed)
     = [EvEmbed (InList ["first"; "second"]);
        EvAdd ["id-0"; "id-1"]
          [Demo.embed_text "first"; Demo.embed_text "second"]
          ["first"; "second"]
          (map chunk_metadata
             (DocumentProcessor.chunk_documents Cases.env_split
                [Readers.document_of
                   (mkFileEntry "./data/documents/guide.TXT" "guide.TXT" ".TXT"
                      (inr "first second"))]))].
Proof. split; vm_compute; reflexivity. Qed.

(** ** The endpoints *)

Section Endpoints.

Lemma prefix_length n s :
  String.length (PyText.prefix n s) = Nat.min n (String.length s).
Proof.
  revert s. induction n as [ | n IH]; intros [ | c s]; simpl; [done.. | ].
  by rewrite IH.
Qed.

Lemma prefix_all n s : (String.length s <= n)%nat -> PyText.prefix n s = s.
Proof.
  revert s. induction n as [ | n IH]; intros [ | c s]; simpl; try done.
  - lia.
  - intros H. f_equal. apply IH. lia.
Qed.

Lemma shown_content doc :
  (String.length (content (Main.shown doc)) <= 203)%nat
  /\ metadata (Main.shown doc) = metadata doc
  /\ relevance_score (Main.shown doc) = relevance_score doc
  /\ ((String.length (content doc) <= 200)%nat ->
      content (Main.shown doc) = content doc +:+ "...").
Proof.
  unfold Main.shown. cbn [content metadata relevance_score].
  split_and!; [ | done | done | ].
  - rewrite length_append, prefix_length.
    change (String.length "...") with 3%nat. lia.
  - intros H. by rewrite prefix_all.
Qed.

End Endpoints.

(** X18. [query_endpoint] answers with status 500, and the text of the
    exception, whenever [query] raises, and with no other error status.
    When [query] returns, the response holds the answer, the user id as
    conversation id, and one entry per retrieved document with its metadata
    and score; the content shown is the first 200 characters followed by
    three dots, at most 203 characters, the dots being added to a short
    content as well. *)
Theorem query_endpoint_response str_of env cfg uid query w :
  let run := Main.query_endpoint str_of env cfg uid query w in
  (forall e,
      result_of (RAGService.query env cfg uid query 5) w = Raise e ->
      run = (Main.Failed 500 (str_of (Main.Service e)),
             world_after (RAGService.query env cfg uid query 5) w))
  /\ (forall answer docs,
        result_of (RAGService.query env cfg uid query 5) w = Ok (answer, docs) ->
        exists ts,
          fst run
          = Main.Returned
              (Main.mkQueryResponse answer (map Main.shown docs) uid ts))
  /\ (forall status_code detail,
        fst run = Main.Failed status_code detail -> status_code = 500)
  /\ (forall doc,
        (String.length (content (Main.shown doc)) <= 203)%nat
        /\ metadata (Main.shown doc) = metadata doc
        /\ relevance_score (Main.shown doc) = relevance_score doc
        /\ ((String.length (content doc) <= 200)%nat ->
            content (Main.shown doc) = content doc +:+ "...")).
Proof.
  unfold Main.query_endpoint, result_of, world_after.
  destruct (RAGService.query env cfg uid query 5 w) as [[[answer docs] | e] w1];
    cbn [fst snd]; split_and!; try done; try apply shown_content.
  - intros a d [= <- <-]. eauto.
  - intros e' [= <-]. done.
  - intros status_code detail [= <- _]. done.
Qed.

(** X19. The indexing endpoint never answers with status 400: the two
    [HTTPException(400)] it raises, for a missing directory and for a
    listing without a name ending in [.txt], [.pdf] or [.docx] (compared as
    written, not in lower case), are caught by its own [except Exception]
    and leave as status 500, before [index_documents] is run.  Every error
    of [index_documents] leaves as status 500 too; when it returns, the
    response reports its count and the listed names. *)
Theorem index_endpoint_outcomes str_of env listing w :
  let run := Main.index_documents_endpoint str_of env listing w in
  (forall status_code detail,
      fst run = Main.Failed status_code detail -> status_code = 500)
  /\ (doc_dirs w !! Main.documents_dir = None ->
      run = (Main.Failed 500
               (str_of (Main.HTTPException 400
                          "Documents directory not found: ./data/documents")),
             w))
  /\ (is_Some (doc_dirs w !! Main.documents_dir) ->
      Main.listed_documents listing = [] ->
      run = (Main.Failed 500
               (str_of (Main.HTTPException 400
                          "No documents found in ./data/documents/")),
             w))
  /\ (is_Some (doc_dirs w !! Main.documents_dir) ->
      Main.listed_documents listing <> [] ->
      run = (match result_of (RAGService.index_documents env Main.documents_dir) w with
             | Ok total =>
                 Main.Returned
                   (Main.mkDocumentUploadResponse "Documents indexed successfully"
                      (Main.listed_documents listing) total "completed")
             | Raise e => Main.Failed 500 (str_of (Main.Service e))
             end,
             world_after (RAGService.index_documents env Main.documents_dir) w)).
Proof.
  unfold Main.index_documents_endpoint, Main.index_documents_body, result_of,
    world_after.
  destruct (doc_dirs w !! Main.documents_dir) as [paths | ] eqn:Hdir.
  - destruct (Main.listed_documents listing) as [ | f files] eqn:Hfiles.
    + simpl. split_and!; try done. by intros ? ? [= <- _].
    + destruct (RAGService.index_documents env Main.documents_dir w)
        as [[total | e] w1]; simpl; split_and!; try done.
      by intros ? ? [= <- _].
  - simpl. split_and!; try done; try (by intros [? ?]).
    by intros ? ? [= <- _].
Qed.

Lemma index_endpoint_outcomes_witness :
  Main.index_documents_endpoint Cases.str_of Cases.env_split ["guide.TXT"]
    Cases.world_mixed
  = (Main.Failed 500 "400: No documents found in ./data/documents/",
     Cases.world_mixed).
Proof.
  refine (proj1 (proj2 (proj2 (index_endpoint_outcomes Cases.str_of
                                 Cases.env_split ["guide.TXT"]
                                 Cases.world_mixed))) _ _).
  - vm_compute. eauto.
  - reflexivity.
Defined.

(** X20. For a user id that names a file of its own, [get_history] only
    reads: whatever it returns, the files, the index and the trace are as
    before.  For a user without a file it returns a new record with that
    user id and no message, and creates no file, so the record exists on
    disk only after the first [add_interaction]. *)
Theorem get_history_reads_only env uid w :
  UserFiles.plain_user_id uid ->
  let w' := world_after (MemoryService.get_history env uid) w in
  conv_files w' = conv_files w /\ coll w' = coll w /\ trace w' = trace w
  /\ (conv_files w !! MemoryService._get_user_file uid = None ->
      exists created updated,
        result_of (MemoryService.get_history env uid) w
        = Ok (mkHistory uid [] created updated)
        /\ conv_files w' !! MemoryService._get_user_file uid = None)
  /\ (forall h,
        conv_files w !! MemoryService._get_user_file uid
        = Some (MemoryService.json_dump h) ->
        MemoryService.get_history env uid w = (Ok h, w)).
Proof.
  intros _. unfold world_after, result_of.
  destruct (MemoryService.get_history env uid w) as [r w'] eqn:Hget.
  destruct (get_history_frame env uid w r w' Hget) as (Htr & Hfiles & Hcoll).
  simpl. split_and!; [done | done | done | | ].
  - intros Habs. rewrite (get_history_absent env uid w Habs) in Hget.
    injection Hget as <- <-. eauto.
  - intros h Hh. rewrite <- Hget. by apply get_history_stored.
Qed.

Lemma get_history_reads_only_witness :
  conv_files (world_after (MemoryService.get_history Demo.env "nobody")
                Demo.world_two)
  = conv_files Demo.world_two.
Proof.
  refine (proj1 (get_history_reads_only Demo.env "nobody" Demo.world_two _)).
  plain_id.
Defined.
